(** * FireFly transaction manager: listing, start-up and shutdown

    A shallow embedding of four source files of the transaction manager:
    - the transaction listing of the control API ([getTransactions]),
    - the policy-engine registry ([RegisterEngine], [NewPolicyEngine]),
    - the manager's construction and shutdown ([newManager], [NewManager],
      [initServices], [initPersistence], [Close]).

    Go values are modelled as follows.  A [(T, error)] result is a [result T];
    a nilable pointer is an [option]; a [map] is a [gmap]; a channel is its
    capacity with its buffer; the effects of [Close] are the list of the
    operations it performs, in order. *)

From Stdlib Require Import ZArith Ascii String List.
From stdpp Require Import base option list gmap strings.

Local Open Scope string_scope.
Local Open Scope list_scope.
Local Open Scope Z_scope.

(** ** Errors and results *)

Module I18n.

(** The message keys of [tmmsgs] raised by the embedded functions. *)
Inductive MessageKey : Type :=
| MsgInvalidSortDirection
| MsgPaginationErrTxNotFound
| MsgTXConflictSignerPending
| MsgUnknownPersistence
| MsgPersistenceInitFail
| MsgPolicyEngineNotRegistered.

(** An [error] value: one built by [i18n.NewError] from a message key and its
    string inserts ([WrapError] when the last insert is itself an [error]), or
    one handed up by a collaborator outside these files, known only by a
    description. *)
Inductive error : Type :=
| LowerError (descr : string)
| NewError (key : MessageKey) (inserts : list string)
| WrapError (key : MessageKey) (inserts : list string) (cause : error).

(** Go's [(T, error)] with the convention that exactly one side is set. *)
Inductive result (T : Type) : Type :=
| OK (v : T)
| Err (e : error).

Arguments OK {T} v.
Arguments Err {T} e.

Definition bind {A B : Type} (r : result A) (k : A -> result B) : result B :=
  match r with
  | OK v => k v
  | Err e => Err e
  end.

Definition isErr {T : Type} (r : result T) : bool :=
  match r with
  | OK _ => false
  | Err _ => true
  end.

(** Modelled from the spec: the HTTP status attached to a message key in
    [tmmsgs], whose table is not among the source files.  The spec gives 404
    for a missing pagination cursor and 400 for the signer/pending conflict and
    for an unrecognised direction; it is silent on the start-up errors. *)
Definition httpStatus (k : MessageKey) : option Z :=
  match k with
  | MsgPaginationErrTxNotFound => Some 404
  | MsgTXConflictSignerPending => Some 400
  | MsgInvalidSortDirection => Some 400
  | _ => None
  end.

Definition statusOf (e : error) : option Z :=
  match e with
  | NewError k _ | WrapError k _ _ => httpStatus k
  | LowerError _ => None
  end.

End I18n.

Export I18n.

Declare Scope result_scope.
Delimit Scope result_scope with result.
Notation "x <- r ;; k" := (bind r (fun x => k))
  (at level 100, r at next level, right associativity) : result_scope.

(** ** Go's [strings.ToLower] *)

Module Strings.

Definition isUpperASCII (c : ascii) : bool :=
  let n := N_of_ascii c in ((65 <=? n) && (n <=? 90))%N.

Definition lowerASCII (c : ascii) : ascii :=
  if isUpperASCII c then ascii_of_N (N_of_ascii c + 32) else c.

(** [c < utf8.RuneSelf] for every byte of the string. *)
Fixpoint isASCII (s : string) : bool :=
  match s with
  | EmptyString => true
  | String c rest => (N_of_ascii c <? 128)%N && isASCII rest
  end.

Fixpoint mapBytes (f : ascii -> ascii) (s : string) : string :=
  match s with
  | EmptyString => EmptyString
  | String c rest => String (f c) (mapBytes f rest)
  end.

(** [strings.ToLower]: a string of ASCII bytes is lowered byte by byte; any
    other string goes through [strings.Map(unicode.ToLower, s)], whose Unicode
    tables belong to the Go library and are taken as [unicodeLower]. *)
Definition ToLower (unicodeLower : string -> string) (s : string) : string :=
  if isASCII s then mapBytes lowerASCII s else unicodeLower s.

End Strings.

(** ** The persistence contract consumed by the API *)

Module Persistence.

Inductive SortDirection : Type :=
| SortDirectionAscending
| SortDirectionDescending.

Definition UUID : Type := N.

Inductive TxStatus : Type :=
| TxStatusPending
| TxStatusSucceeded
| TxStatusFailed
| TxStatusSuspended.

(** [apitypes.ManagedTX], with the fields the listing reads or the index
    queries order by; [Nonce] and [SequenceID] are pointers in the source. *)
Record ManagedTX : Type := {
  ID : string;
  Created : Z;
  Status : TxStatus;
  SequenceID : option UUID;
  Nonce : option Z;
  From_ : string;
  TransactionHash : string
}.

Section Interface.

Variable context : Type.

(** The methods of [persistence.Persistence] that the manager calls. *)
Record Persistence : Type := {
  GetTransactionByID : context -> string -> result (option ManagedTX);
  ListTransactionsByNonce :
    context -> string -> option Z -> Z -> SortDirection -> result (list ManagedTX);
  ListTransactionsPending :
    context -> option UUID -> Z -> SortDirection -> result (list ManagedTX);
  ListTransactionsByCreateTime :
    context -> option ManagedTX -> Z -> SortDirection -> result (list ManagedTX)
}.

End Interface.

Arguments GetTransactionByID {context} _ _ _.
Arguments ListTransactionsByNonce {context} _ _ _ _ _ _.
Arguments ListTransactionsPending {context} _ _ _ _ _.
Arguments ListTransactionsByCreateTime {context} _ _ _ _ _.

End Persistence.

Export Persistence.

(** ** The transaction listing of the control API *)

Module Api.

Section GetTransactions.

Variable context : Type.

(** The receiver: of the manager [m], the listing uses [m.persistence] and
    [m.parseLimit]; the latter is defined outside these files. *)
Variable persistence : Persistence context.
Variable parseLimit : context -> string -> result Z.
Variable unicodeLower : string -> string.

Local Open Scope result_scope.

Definition getTransactionByID (ctx : context) (txID : string)
  : result (option ManagedTX) :=
  GetTransactionByID persistence ctx txID.

Definition getTransactions (ctx : context)
    (afterStr limitStr signer : string) (pending : bool) (dirString : string)
  : result (list ManagedTX) :=
  limit <- parseLimit ctx limitStr ;;
  dir <- (let d := Strings.ToLower unicodeLower dirString in
          if String.eqb d "" || String.eqb d "desc" || String.eqb d "descending"
          then OK SortDirectionDescending
          else if String.eqb d "asc" || String.eqb d "ascending"
          then OK SortDirectionAscending
          else Err (NewError MsgInvalidSortDirection [dirString])) ;;
  afterTx <- (if negb (String.eqb afterStr "")
              then
                found <- GetTransactionByID persistence ctx afterStr ;;
                match found with
                | None => Err (NewError MsgPaginationErrTxNotFound [afterStr])
                | Some tx => OK (Some tx)
                end
              else OK None) ;;
  if negb (String.eqb signer "") && pending
  then Err (NewError MsgTXConflictSignerPending [])
  else if negb (String.eqb signer "")
  then
    let afterNonce := match afterTx with Some tx => Nonce tx | None => None end in
    ListTransactionsByNonce persistence ctx signer afterNonce limit dir
  else if pending
  then
    let afterSequence :=
      match afterTx with Some tx => SequenceID tx | None => None end in
    ListTransactionsPending persistence ctx afterSequence limit dir
  else ListTransactionsByCreateTime persistence ctx afterTx limit dir.

(** The three blocks that follow the limit in [getTransactions], named so
    that statements can speak of one of them: the direction switch, the
    cursor lookup and the final switch over [signer] and [pending]. *)
Definition sortDirection (dirString : string) : result SortDirection :=
  let d := Strings.ToLower unicodeLower dirString in
  if String.eqb d "" || String.eqb d "desc" || String.eqb d "descending"
  then OK SortDirectionDescending
  else if String.eqb d "asc" || String.eqb d "ascending"
  then OK SortDirectionAscending
  else Err (NewError MsgInvalidSortDirection [dirString]).

Definition cursorLookup (ctx : context) (afterStr : string)
  : result (option ManagedTX) :=
  if negb (String.eqb afterStr "")
  then
    found <- GetTransactionByID persistence ctx afterStr ;;
    match found with
    | None => Err (NewError MsgPaginationErrTxNotFound [afterStr])
    | Some tx => OK (Some tx)
    end
  else OK None.

Definition listBy (ctx : context) (signer : string) (pending : bool)
    (afterTx : option ManagedTX) (limit : Z) (dir : SortDirection)
  : result (list ManagedTX) :=
  if negb (String.eqb signer "") && pending
  then Err (NewError MsgTXConflictSignerPending [])
  else if negb (String.eqb signer "")
  then
    ListTransactionsByNonce persistence ctx signer
      (match afterTx with Some tx => Nonce tx | None => None end) limit dir
  else if pending
  then
    ListTransactionsPending persistence ctx
      (match afterTx with Some tx => SequenceID tx | None => None end) limit dir
  else ListTransactionsByCreateTime persistence ctx afterTx limit dir.

End GetTransactions.

Arguments getTransactionByID {context} _ _ _.
Arguments getTransactions {context} _ _ _ _ _ _ _ _ _.
Arguments cursorLookup {context} _ _ _.
Arguments listBy {context} _ _ _ _ _ _ _.

End Api.

(** ** Configuration and the collaborators outside these files *)

Module Config.

(** A [config.Section] is known by the path of its key prefix. *)
Definition ConfigSection : Type := list string.

Definition SubSection (s : ConfigSection) (name : string) : ConfigSection :=
  s ++ [name].

(** The keys of [tmconfig] read by the manager. *)
Inductive ConfigKey : Type :=
| PolicyLoopInterval
| PolicyLoopRetryInitDelay
| PolicyLoopRetryMaxDelay
| PolicyLoopRetryFactor
| TransactionsErrorHistoryCount
| TransactionsMaxInFlight
| TransactionsNonceStateTimeout
| PolicyEngineName
| PersistenceType
| DebugPort.

End Config.

Export Config.

Module Externals.

(** What the embedded files import from other packages: the opaque types of
    their values, the process-wide configuration store with its getters, and
    the constructors of the manager's services.  The router, the done channel
    and the API and CORS sections handed to [httpserver.NewHTTPServer] are
    left out of its model. *)
Record t : Type := {
  context : Type;
  Connector : Type;
  ConfirmationsManager : Type;
  PolicyEngine : Type;
  HTTPServer : Type;
  WebSocketServer : Type;
  Stream : Type;
  lockedNonce : Type;
  float64 : Type;
  ConfigStore : Type;
  GetString : ConfigStore -> ConfigKey -> string;
  GetInt : ConfigStore -> ConfigKey -> Z;
  GetDuration : ConfigStore -> ConfigKey -> Z;
  GetFloat64 : ConfigStore -> ConfigKey -> float64;
  PolicyEngineBaseConfig : ConfigSection;
  NewBlockConfirmationManager : context -> Connector -> string -> ConfirmationsManager;
  NewWebSocketServer : context -> WebSocketServer;
  NewHTTPServer : context -> string -> result HTTPServer;
  NewLevelDBPersistence : context -> result (Persistence context)
}.

End Externals.

(** ** The policy-engine registry *)

Module Policyengines.

(** The [Factory] interface. [InitConfig] writes defaults into the
    configuration store; [NewPolicyEngine] reads it. *)
Module Factory.
Record t (E : Externals.t) : Type := {
  Name : string;
  InitConfig : ConfigSection -> Externals.ConfigStore E -> Externals.ConfigStore E;
  NewPolicyEngine :
    Externals.context E -> ConfigSection -> Externals.ConfigStore E ->
    result (Externals.PolicyEngine E)
}.
Arguments Name {E} _.
Arguments InitConfig {E} _ _ _.
Arguments NewPolicyEngine {E} _ _ _ _.
End Factory.

Section Registry.

Variable E : Externals.t.

(** The process-wide state: the package variable [policyEngines] and the
    configuration store. *)
Record Globals : Type := {
  policyEngines : gmap string (Factory.t E);
  config : Externals.ConfigStore E
}.

Definition NewPolicyEngine (g : Globals) (ctx : Externals.context E)
    (baseConfig : ConfigSection) (name : string)
  : result (Externals.PolicyEngine E) :=
  match policyEngines g !! name with
  | None => Err (NewError MsgPolicyEngineNotRegistered [name])
  | Some factory =>
      Factory.NewPolicyEngine factory ctx (SubSection baseConfig name) (config g)
  end.

Definition RegisterEngine (factory : Factory.t E) (g : Globals) : string * Globals :=
  let name := Factory.Name factory in
  let engines := <[name := factory]> (policyEngines g) in
  let conf :=
    Factory.InitConfig factory
      (SubSection (Externals.PolicyEngineBaseConfig E) name) (config g) in
  (name, {| policyEngines := engines; config := conf |}).

(** A run of registrations, as the engines' packages perform them one after
    the other at import time. *)
Definition registerAll (factories : list (Factory.t E)) (g : Globals) : Globals :=
  fold_left (fun acc factory => snd (RegisterEngine factory acc)) factories g.

(** The factory registered last under [name] in a run of registrations. *)
Fixpoint lastNamed (name : string) (factories : list (Factory.t E))
  : option (Factory.t E) :=
  match factories with
  | [] => None
  | factory :: rest =>
      match lastNamed name rest with
      | Some later => Some later
      | None => if String.eqb (Factory.Name factory) name then Some factory else None
      end
  end.

End Registry.

Arguments policyEngines {E} _.
Arguments config {E} _.
Arguments NewPolicyEngine {E} _ _ _ _.
Arguments RegisterEngine {E} _ _.
Arguments registerAll {E} _ _.
Arguments lastNamed {E} _ _.

End Policyengines.

(** ** The manager *)

Module Fftm.

Import Policyengines.

(** A channel made by [make(chan T, n)]: its capacity and what it buffers. *)
Record chan (T : Type) : Type := {
  cap : nat;
  buf : list T
}.

Arguments cap {T} _.
Arguments buf {T} _.

Definition make_chan (T : Type) (n : nat) : chan T :=
  {| cap := n; buf := [] |}.

(** Modelled from the spec: the coalescing write of the signallers
    ([markInflightStale] and its sibling are called here but defined outside
    these files): a send that is dropped when the buffer is full. *)
Definition trySend {T : Type} (c : chan T) (v : T) : chan T :=
  if (length (buf c) <? cap c)%nat
  then {| cap := cap c; buf := buf c ++ [v] |}
  else c.

Definition signalAll {T : Type} (c : chan T) (vs : list T) : chan T :=
  fold_left trySend vs c.

Inductive policyEngineAPIRequestType : Type :=
| policyEngineAPIRequestTypeDelete.

Record policyEngineAPIResponse : Type := {
  tx : option ManagedTX;
  err : option error;
  status : Z
}.

Record policyEngineAPIRequest : Type := {
  requestType : policyEngineAPIRequestType;
  txID : string;
  startTime : Z;
  response : chan policyEngineAPIResponse
}.

Record pendingState : Type := {
  mtx : option ManagedTX;
  lastPolicyCycle : Z;
  confirmed : bool;
  remove : bool;
  trackingTransactionHash : string
}.

(** The pair made by [context.WithCancel]: the derived context is its parent
    with a cancellation flag that [cancelCtx] raises. *)
Record cancelContext (context : Type) : Type := {
  parent : context;
  cancelled : bool
}.

Arguments parent {context} _.
Arguments cancelled {context} _.

Section Manager.

Variable E : Externals.t.

Record Retry : Type := {
  InitialDelay : Z;
  MaximumDelay : Z;
  Factor : Externals.float64 E
}.

(** The [manager] struct; its mutex has no state of its own here, taking and
    releasing it are operations of [Close]. *)
Record manager : Type := {
  ctx : cancelContext (Externals.context E);
  retry : Retry;
  connector : Externals.Connector E;
  confirmations : option (Externals.ConfirmationsManager E);
  policyEngine : option (Externals.PolicyEngine E);
  apiServer : option (Externals.HTTPServer E);
  wsServer : option (Externals.WebSocketServer E);
  persistence : option (Persistence (Externals.context E));
  inflightStale : chan bool;
  inflightUpdate : chan bool;
  inflight : list pendingState;
  policyEngineAPIRequests : list policyEngineAPIRequest;
  lockedNonces : gmap string (Externals.lockedNonce E);
  eventStreams : gmap UUID (Externals.Stream E);
  streamsByName : gmap string UUID;
  policyLoopDone : option (chan unit);
  blockListenerDone : option (chan unit);
  started : bool;
  apiServerDone : chan error;
  policyLoopInterval : Z;
  nonceStateTimeout : Z;
  errorHistoryCount : Z;
  maxInFlight : Z
}.

Definition set_ctx (v : cancelContext (Externals.context E)) (m : manager) : manager :=
  {| ctx := v;
     retry := retry m;
     connector := connector m;
     confirmations := confirmations m;
     policyEngine := policyEngine m;
     apiServer := apiServer m;
     wsServer := wsServer m;
     persistence := persistence m;
     inflightStale := inflightStale m;
     inflightUpdate := inflightUpdate m;
     inflight := inflight m;
     policyEngineAPIRequests := policyEngineAPIRequests m;
     lockedNonces := lockedNonces m;
     eventStreams := eventStreams m;
     streamsByName := streamsByName m;
     policyLoopDone := policyLoopDone m;
     blockListenerDone := blockListenerDone m;
     started := started m;
     apiServerDone := apiServerDone m;
     policyLoopInterval := policyLoopInterval m;
     nonceStateTimeout := nonceStateTimeout m;
     errorHistoryCount := errorHistoryCount m;
     maxInFlight := maxInFlight m |}.

Definition set_confirmations (v : option (Externals.ConfirmationsManager E)) (m : manager) : manager :=
  {| ctx := ctx m;
     retry := retry m;
     connector := connector m;
     confirmations := v;
     policyEngine := policyEngine m;
     apiServer := apiServer m;
     wsServer := wsServer m;
     persistence := persistence m;
     inflightStale := inflightStale m;
     inflightUpdate := inflightUpdate m;
     inflight := inflight m;
     policyEngineAPIRequests := policyEngineAPIRequests m;
     lockedNonces := lockedNonces m;
     eventStreams := eventStreams m;
     streamsByName := streamsByName m;
     policyLoopDone := policyLoopDone m;
     blockListenerDone := blockListenerDone m;
     started := started m;
     apiServerDone := apiServerDone m;
     policyLoopInterval := policyLoopInterval m;
     nonceStateTimeout := nonceStateTimeout m;
     errorHistoryCount := errorHistoryCount m;
     maxInFlight := maxInFlight m |}.

Definition set_policyEngine (v : option (Externals.PolicyEngine E)) (m : manager) : manager :=
  {| ctx := ctx m;
     retry := retry m;
     connector := connector m;
     confirmations := confirmations m;
     policyEngine := v;
     apiServer := apiServer m;
     wsServer := wsServer m;
     persistence := persistence m;
     inflightStale := inflightStale m;
     inflightUpdate := inflightUpdate m;
     inflight := inflight m;
     policyEngineAPIRequests := policyEngineAPIRequests m;
     lockedNonces := lockedNonces m;
     eventStreams := eventStreams m;
     streamsByName := streamsByName m;
     policyLoopDone := policyLoopDone m;
     blockListenerDone := blockListenerDone m;
     started := started m;
     apiServerDone := apiServerDone m;
     policyLoopInterval := policyLoopInterval m;
     nonceStateTimeout := nonceStateTimeout m;
     errorHistoryCount := errorHistoryCount m;
     maxInFlight := maxInFlight m |}.

Definition set_apiServer (v : option (Externals.HTTPServer E)) (m : manager) : manager :=
  {| ctx := ctx m;
     retry := retry m;
     connector := connector m;
     confirmations := confirmations m;
     policyEngine := policyEngine m;
     apiServer := v;
     wsServer := wsServer m;
     persistence := persistence m;
     inflightStale := inflightStale m;
     inflightUpdate := inflightUpdate m;
     inflight := inflight m;
     policyEngineAPIRequests := policyEngineAPIRequests m;
     lockedNonces := lockedNonces m;
     eventStreams := eventStreams m;
     streamsByName := streamsByName m;
     policyLoopDone := policyLoopDone m;
     blockListenerDone := blockListenerDone m;
     started := started m;
     apiServerDone := apiServerDone m;
     policyLoopInterval := policyLoopInterval m;
     nonceStateTimeout := nonceStateTimeout m;
     errorHistoryCount := errorHistoryCount m;
     maxInFlight := maxInFlight m |}.

Definition set_wsServer (v : option (Externals.WebSocketServer E)) (m : manager) : manager :=
  {| ctx := ctx m;
     retry := retry m;
     connector := connector m;
     confirmations := confirmations m;
     policyEngine := policyEngine m;
     apiServer := apiServer m;
     wsServer := v;
     persistence := persistence m;
     inflightStale := inflightStale m;
     inflightUpdate := inflightUpdate m;
     inflight := inflight m;
     policyEngineAPIRequests := policyEngineAPIRequests m;
     lockedNonces := lockedNonces m;
     eventStreams := eventStreams m;
     streamsByName := streamsByName m;
     policyLoopDone := policyLoopDone m;
     blockListenerDone := blockListenerDone m;
     started := started m;
     apiServerDone := apiServerDone m;
     policyLoopInterval := policyLoopInterval m;
     nonceStateTimeout := nonceStateTimeout m;
     errorHistoryCount := errorHistoryCount m;
     maxInFlight := maxInFlight m |}.

Definition set_persistence (v : option (Persistence (Externals.context E))) (m : manager) : manager :=
  {| ctx := ctx m;
     retry := retry m;
     connector := connector m;
     confirmations := confirmations m;
     policyEngine := policyEngine m;
     apiServer := apiServer m;
     wsServer := wsServer m;
     persistence := v;
     inflightStale := inflightStale m;
     inflightUpdate := inflightUpdate m;
     inflight := inflight m;
     policyEngineAPIRequests := policyEngineAPIRequests m;
     lockedNonces := lockedNonces m;
     eventStreams := eventStreams m;
     streamsByName := streamsByName m;
     policyLoopDone := policyLoopDone m;
     blockListenerDone := blockListenerDone m;
     started := started m;
     apiServerDone := apiServerDone m;
     policyLoopInterval := policyLoopInterval m;
     nonceStateTimeout := nonceStateTimeout m;
     errorHistoryCount := errorHistoryCount m;
     maxInFlight := maxInFlight m |}.

Definition set_started (v : bool) (m : manager) : manager :=
  {| ctx := ctx m;
     retry := retry m;
     connector := connector m;
     confirmations := confirmations m;
     policyEngine := policyEngine m;
     apiServer := apiServer m;
     wsServer := wsServer m;
     persistence := persistence m;
     inflightStale := inflightStale m;
     inflightUpdate := inflightUpdate m;
     inflight := inflight m;
     policyEngineAPIRequests := policyEngineAPIRequests m;
     lockedNonces := lockedNonces m;
     eventStreams := eventStreams m;
     streamsByName := streamsByName m;
     policyLoopDone := policyLoopDone m;
     blockListenerDone := blockListenerDone m;
     started := v;
     apiServerDone := apiServerDone m;
     policyLoopInterval := policyLoopInterval m;
     nonceStateTimeout := nonceStateTimeout m;
     errorHistoryCount := errorHistoryCount m;
     maxInFlight := maxInFlight m |}.

Definition set_eventStreams (v : gmap UUID (Externals.Stream E)) (m : manager) : manager :=
  {| ctx := ctx m;
     retry := retry m;
     connector := connector m;
     confirmations := confirmations m;
     policyEngine := policyEngine m;
     apiServer := apiServer m;
     wsServer := wsServer m;
     persistence := persistence m;
     inflightStale := inflightStale m;
     inflightUpdate := inflightUpdate m;
     inflight := inflight m;
     policyEngineAPIRequests := policyEngineAPIRequests m;
     lockedNonces := lockedNonces m;
     eventStreams := v;
     streamsByName := streamsByName m;
     policyLoopDone := policyLoopDone m;
     blockListenerDone := blockListenerDone m;
     started := started m;
     apiServerDone := apiServerDone m;
     policyLoopInterval := policyLoopInterval m;
     nonceStateTimeout := nonceStateTimeout m;
     errorHistoryCount := errorHistoryCount m;
     maxInFlight := maxInFlight m |}.

Definition newManager (g : Globals E) (ctx : Externals.context E)
    (connector : Externals.Connector E) : manager :=
  let conf := config g in
  {| ctx := {| parent := ctx; cancelled := false |};
     retry :=
       {| InitialDelay := Externals.GetDuration E conf PolicyLoopRetryInitDelay;
          MaximumDelay := Externals.GetDuration E conf PolicyLoopRetryMaxDelay;
          Factor := Externals.GetFloat64 E conf PolicyLoopRetryFactor |};
     connector := connector;
     confirmations := None;
     policyEngine := None;
     apiServer := None;
     wsServer := None;
     persistence := None;
     inflightStale := make_chan bool 1;
     inflightUpdate := make_chan bool 1;
     inflight := [];
     policyEngineAPIRequests := [];
     lockedNonces := ∅;
     eventStreams := ∅;
     streamsByName := ∅;
     policyLoopDone := None;
     blockListenerDone := None;
     started := false;
     apiServerDone := make_chan error 0;
     policyLoopInterval := Externals.GetDuration E conf PolicyLoopInterval;
     nonceStateTimeout := Externals.GetDuration E conf TransactionsNonceStateTimeout;
     errorHistoryCount := Externals.GetInt E conf TransactionsErrorHistoryCount;
     maxInFlight := Externals.GetInt E conf TransactionsMaxInFlight |}.

(** A method that assigns fields of [m] and returns [err] gives back the
    manager as it leaves it, next to the error; a field assigned together with
    a non-nil [err] is left nil. *)
Definition initServices (g : Globals E) (m : manager) (ctx : Externals.context E)
  : manager * option error :=
  let m :=
    set_confirmations
      (Some (Externals.NewBlockConfirmationManager E ctx (connector m) "receipts")) m in
  match NewPolicyEngine g ctx (Externals.PolicyEngineBaseConfig E)
          (Externals.GetString E (config g) PolicyEngineName) with
  | Err e => (set_policyEngine None m, Some e)
  | OK engine =>
      let m := set_policyEngine (Some engine) m in
      let m := set_wsServer (Some (Externals.NewWebSocketServer E ctx)) m in
      match Externals.NewHTTPServer E ctx "api" with
      | Err e => (set_apiServer None m, Some e)
      | OK server => (set_apiServer (Some server) m, None)
      end
  end.

Definition initPersistence (g : Globals E) (m : manager) (ctx : Externals.context E)
  : manager * option error :=
  let pType := Externals.GetString E (config g) PersistenceType in
  if String.eqb pType "leveldb"
  then
    match Externals.NewLevelDBPersistence E ctx with
    | Err e => (set_persistence None m, Some (WrapError MsgPersistenceInitFail [pType] e))
    | OK p => (set_persistence (Some p) m, None)
    end
  else (m, Some (NewError MsgUnknownPersistence [pType])).

Definition NewManager (g : Globals E) (ctx : Externals.context E)
    (connector : Externals.Connector E) : result manager :=
  let m := newManager g ctx connector in
  match initServices g m ctx with
  | (_, Some e) => Err e
  | (m, None) =>
      match initPersistence g m ctx with
      | (_, Some e) => Err e
      | (m, None) => OK m
      end
  end.

(** *** Shutdown *)

Inductive doneChan : Type :=
| ApiServerDone
| PolicyLoopDone
| BlockListenerDone.

(** The operations [Close] performs on its surroundings. A receive is
    recorded when it is reached; [NilPersistence] is the call of [Close] on a
    [persistence] field that was never set. *)
Inductive closeOp : Type :=
| CancelCtx
| Receive (ch : doneChan)
| MuxLock
| MuxUnlock
| StreamStop (s : Externals.Stream E)
| PersistenceClose (p : Persistence (Externals.context E))
| NilPersistence.

(** [range] is the order in which Go's runtime walks the [eventStreams] map
    during this call. *)
Definition Close (range : gmap UUID (Externals.Stream E) -> list (UUID * Externals.Stream E))
    (m : manager) : manager * list closeOp :=
  let m := set_ctx {| parent := parent (ctx m); cancelled := true |} m in
  let (m, whenStarted) :=
    if started m
    then
      let m := set_started false m in
      let streams := fold_left (fun acc s => acc ++ [snd s]) (range (eventStreams m)) [] in
      (m,
       [Receive ApiServerDone; Receive PolicyLoopDone; Receive BlockListenerDone;
        MuxLock; MuxUnlock] ++ map StreamStop streams)
    else (m, []) in
  (m, [CancelCtx] ++ whenStarted ++
      [match persistence m with
       | Some p => PersistenceClose p
       | None => NilPersistence
       end]).

Definition set_blockListenerDone (v : option (chan unit)) (m : manager) : manager :=
  {| ctx := ctx m;
     retry := retry m;
     connector := connector m;
     confirmations := confirmations m;
     policyEngine := policyEngine m;
     apiServer := apiServer m;
     wsServer := wsServer m;
     persistence := persistence m;
     inflightStale := inflightStale m;
     inflightUpdate := inflightUpdate m;
     inflight := inflight m;
     policyEngineAPIRequests := policyEngineAPIRequests m;
     lockedNonces := lockedNonces m;
     eventStreams := eventStreams m;
     streamsByName := streamsByName m;
     policyLoopDone := policyLoopDone m;
     blockListenerDone := v;
     started := started m;
     apiServerDone := apiServerDone m;
     policyLoopInterval := policyLoopInterval m;
     nonceStateTimeout := nonceStateTimeout m;
     errorHistoryCount := errorHistoryCount m;
     maxInFlight := maxInFlight m |}.

Definition set_policyLoopDone (v : option (chan unit)) (m : manager) : manager :=
  {| ctx := ctx m;
     retry := retry m;
     connector := connector m;
     confirmations := confirmations m;
     policyEngine := policyEngine m;
     apiServer := apiServer m;
     wsServer := wsServer m;
     persistence := persistence m;
     inflightStale := inflightStale m;
     inflightUpdate := inflightUpdate m;
     inflight := inflight m;
     policyEngineAPIRequests := policyEngineAPIRequests m;
     lockedNonces := lockedNonces m;
     eventStreams := eventStreams m;
     streamsByName := streamsByName m;
     policyLoopDone := v;
     blockListenerDone := blockListenerDone m;
     started := started m;
     apiServerDone := apiServerDone m;
     policyLoopInterval := policyLoopInterval m;
     nonceStateTimeout := nonceStateTimeout m;
     errorHistoryCount := errorHistoryCount m;
     maxInFlight := maxInFlight m |}.

Definition set_inflightStale (v : chan bool) (m : manager) : manager :=
  {| ctx := ctx m;
     retry := retry m;
     connector := connector m;
     confirmations := confirmations m;
     policyEngine := policyEngine m;
     apiServer := apiServer m;
     wsServer := wsServer m;
     persistence := persistence m;
     inflightStale := v;
     inflightUpdate := inflightUpdate m;
     inflight := inflight m;
     policyEngineAPIRequests := policyEngineAPIRequests m;
     lockedNonces := lockedNonces m;
     eventStreams := eventStreams m;
     streamsByName := streamsByName m;
     policyLoopDone := policyLoopDone m;
     blockListenerDone := blockListenerDone m;
     started := started m;
     apiServerDone := apiServerDone m;
     policyLoopInterval := policyLoopInterval m;
     nonceStateTimeout := nonceStateTimeout m;
     errorHistoryCount := errorHistoryCount m;
     maxInFlight := maxInFlight m |}.

(** *** Start *)

(** What [Start] calls outside these files: the manager's own
    [restoreStreams], which fills the stream maps, the identifier drawn by
    [fftypes.NewUUID], [blocklistener.BufferChannel], of which the done channel
    is kept, and the connector's [NewBlockListener], of which only the error
    is read. *)
Record startCalls : Type := {
  restoreStreams : manager -> manager * option error;
  NewUUID : UUID;
  BufferChannel :
    cancelContext (Externals.context E) ->
    option (Externals.ConfirmationsManager E) -> chan unit;
  NewBlockListener :
    Externals.Connector E -> cancelContext (Externals.context E) -> UUID ->
    option error
}.

(** The operations [Start] performs on its surroundings, in order; a [Go]
    operation launches a task. *)
Inductive startOp : Type :=
| RestoreStreams
| GoDebugListen (port : Z)
| DebugClose (port : Z)
| BufferBlocks
| ListenBlocks (id : UUID)
| GoRunAPIServer
| MarkInflightStale
| GoPolicyLoop
| GoConfirmationsStart.

(** The deferred function of [Start]: it runs on every return that follows
    its registration. *)
Definition deferredDebugClose (debugServer : option Z) : list startOp :=
  match debugServer with
  | Some port => [DebugClose port]
  | None => []
  end.

(** [Start]. Its call of [markInflightStale] is the coalescing send on
    [inflightStale] modelled above; the logging is left out. *)
Definition Start (calls : startCalls) (g : Globals E) (m : manager)
  : manager * option error * list startOp :=
  match restoreStreams calls m with
  | (m, Some e) => (m, Some e, [RestoreStreams])
  | (m, None) =>
      let debugPort := Externals.GetInt E (config g) DebugPort in
      let debugServer := if 0 <=? debugPort then Some debugPort else None in
      let debugOps :=
        match debugServer with
        | Some port => [GoDebugListen port]
        | None => []
        end in
      let m := set_blockListenerDone (Some (BufferChannel calls (ctx m) (confirmations m))) m in
      match NewBlockListener calls (connector m) (ctx m) (NewUUID calls) with
      | Some e =>
          (m, Some e,
           [RestoreStreams] ++ debugOps ++ [BufferBlocks; ListenBlocks (NewUUID calls)]
             ++ deferredDebugClose debugServer)
      | None =>
          let m := set_policyLoopDone (Some (make_chan unit 0)) m in
          let m := set_inflightStale (trySend (inflightStale m) true) m in
          let m := set_started true m in
          (m, None,
           [RestoreStreams] ++ debugOps ++ [BufferBlocks; ListenBlocks (NewUUID calls)]
             ++ [GoRunAPIServer; MarkInflightStale; GoPolicyLoop; GoConfirmationsStart]
             ++ deferredDebugClose debugServer)
      end
  end.

End Manager.

Arguments newManager {E} _ _ _.
Arguments initServices {E} _ _ _.
Arguments initPersistence {E} _ _ _.
Arguments NewManager {E} _ _ _.
Arguments Close {E} _ _.
Arguments set_eventStreams {E} _ _.
Arguments set_started {E} _ _.
Arguments CancelCtx {E}.
Arguments Receive {E} _.
Arguments MuxLock {E}.
Arguments MuxUnlock {E}.
Arguments StreamStop {E} _.
Arguments PersistenceClose {E} _.
Arguments NilPersistence {E}.
Arguments inflightStale {E} _.
Arguments inflightUpdate {E} _.
Arguments started {E} _.
Arguments persistence {E} _.
Arguments eventStreams {E} _.
Arguments ctx {E} _.
Arguments Start {E} _ _ _.
Arguments restoreStreams {E} _ _.
Arguments NewUUID {E} _.
Arguments BufferChannel {E} _ _ _.
Arguments NewBlockListener {E} _ _ _ _.
Arguments policyLoopDone {E} _.
Arguments blockListenerDone {E} _.
Arguments connector {E} _.
Arguments confirmations {E} _.
Arguments wsServer {E} _.
Arguments inflight {E} _.
Arguments streamsByName {E} _.
Arguments lockedNonces {E} _.
Arguments policyEngineAPIRequests {E} _.
Arguments apiServerDone {E} _.
Arguments policyEngine {E} _.
Arguments apiServer {E} _.

End Fftm.

(** ** Concrete collaborators

    Small instances of what the embedded files leave open, on which the
    statements below are run. *)

Module Sample.

Import Policyengines Fftm.

Fixpoint parseDigits (s : string) (acc : Z) : option Z :=
  match s with
  | EmptyString => Some acc
  | String c rest =>
      let n := Z.of_N (N_of_ascii c) in
      if (48 <=? n) && (n <=? 57) then parseDigits rest (acc * 10 + (n - 48)) else None
  end.

(** Modelled from the spec: [parseLimit], defined outside these files. The
    limit defaults to a configured value and 0 is invalid; a limit that is not
    a decimal number is rejected as well. *)
Definition parseLimit (default : Z) (_ : unit) (limitStr : string) : result Z :=
  if String.eqb limitStr "" then OK default
  else match parseDigits limitStr 0 with
       | Some 0 | None => Err (LowerError "invalid limit")
       | Some n => OK n
       end.

Definition tx1 : ManagedTX :=
  {| ID := "tx1"; Created := 1000; Status := TxStatusPending; SequenceID := Some 1%N;
     Nonce := Some 7; From_ := "0xaaa"; TransactionHash := "0xh1" |}.

Definition tx2 : ManagedTX :=
  {| ID := "tx2"; Created := 2000; Status := TxStatusPending; SequenceID := Some 2%N;
     Nonce := Some 8; From_ := "0xaaa"; TransactionHash := "0xh2" |}.

Definition tx3 : ManagedTX :=
  {| ID := "tx3"; Created := 3000; Status := TxStatusSucceeded; SequenceID := Some 3%N;
     Nonce := Some 4; From_ := "0xbbb"; TransactionHash := "0xh3" |}.

Definition isPending (t : ManagedTX) : bool :=
  match Status t with
  | TxStatusPending => true
  | _ => false
  end.

Definition ordered (dir : SortDirection) (l : list ManagedTX) : list ManagedTX :=
  match dir with
  | SortDirectionAscending => l
  | SortDirectionDescending => rev l
  end.

(** An in-memory store kept in insertion order; its listings filter, order
    and cut to the limit, and take no account of the cursor. *)
Definition memPersistence (txs : list ManagedTX) : Persistence unit :=
  {| GetTransactionByID := fun _ id => OK (List.find (fun t => String.eqb (ID t) id) txs);
     ListTransactionsByNonce := fun _ signer _ limit dir =>
       OK (firstn (Z.to_nat limit)
             (ordered dir (List.filter (fun t => String.eqb (From_ t) signer) txs)));
     ListTransactionsPending := fun _ _ limit dir =>
       OK (firstn (Z.to_nat limit) (ordered dir (List.filter isPending txs)));
     ListTransactionsByCreateTime := fun _ _ limit dir =>
       OK (firstn (Z.to_nat limit) (ordered dir txs)) |}.

(** A store whose lookups fail. *)
Definition downPersistence : Persistence unit :=
  {| GetTransactionByID := fun _ _ => Err (LowerError "store is down");
     ListTransactionsByNonce := fun _ _ _ _ _ => Err (LowerError "store is down");
     ListTransactionsPending := fun _ _ _ _ => Err (LowerError "store is down");
     ListTransactionsByCreateTime := fun _ _ _ _ => Err (LowerError "store is down") |}.

Definition store : Persistence unit := memPersistence [tx1; tx2; tx3].

(** A configuration store: the two names the start-up reads and the sections
    initialised so far, latest first. *)
Record conf : Type := {
  engineName : string;
  persistenceType : string;
  initialised : list ConfigSection
}.

Definition externals : Externals.t :=
  {| Externals.context := unit;
     Externals.Connector := unit;
     Externals.ConfirmationsManager := unit;
     Externals.PolicyEngine := string;
     Externals.HTTPServer := unit;
     Externals.WebSocketServer := unit;
     Externals.Stream := string;
     Externals.lockedNonce := unit;
     Externals.float64 := unit;
     Externals.ConfigStore := conf;
     Externals.GetString := fun c k =>
       match k with
       | PolicyEngineName => engineName c
       | PersistenceType => persistenceType c
       | _ => ""
       end;
     Externals.GetInt := fun _ _ => 100;
     Externals.GetDuration := fun _ _ => 1000;
     Externals.GetFloat64 := fun _ _ => tt;
     Externals.PolicyEngineBaseConfig := ["policyengine"];
     Externals.NewBlockConfirmationManager := fun _ _ _ => tt;
     Externals.NewWebSocketServer := fun _ => tt;
     Externals.NewHTTPServer := fun _ _ => OK tt;
     Externals.NewLevelDBPersistence := fun _ => OK store |}.

(** A factory that records the section it is initialised with and builds the
    engine [tag]. *)
Definition factory (name tag : string) : Factory.t externals :=
  Factory.Build_t externals name
    (fun sec (c : conf) =>
       {| engineName := engineName c; persistenceType := persistenceType c;
          initialised := sec :: initialised c |})
    (fun _ _ _ => OK tag).

Definition globals (engine pType : string) (registered : list (Factory.t externals))
  : Globals externals :=
  registerAll registered
    (Build_Globals externals ∅
       {| engineName := engine; persistenceType := pType; initialised := [] |}).

(** A manager as [NewManager] returns it, with two event streams restored:
    [idle] before [Start] has completed, [running] after it. *)
Definition idle : manager externals :=
  set_eventStreams {[ 1%N := "stream-a"; 2%N := "stream-b" ]}
    (set_persistence externals (Some store)
       (newManager (globals "simple" "leveldb" [factory "simple" "engine-1"]) tt tt)).

Definition running : manager externals := set_started true idle.

(** A transaction that has neither nonce nor sequence ID yet, and a store that
    holds it. *)
Definition tx4 : ManagedTX :=
  {| ID := "tx4"; Created := 4000; Status := TxStatusPending; SequenceID := None;
     Nonce := None; From_ := "0xaaa"; TransactionHash := "" |}.

Definition earlyStore : Persistence unit := memPersistence [tx1; tx4].

(** [store] with lookups by ID that fail. *)
Definition blindStore : Persistence unit :=
  {| GetTransactionByID := fun _ _ => Err (LowerError "store is down");
     ListTransactionsByNonce := ListTransactionsByNonce store;
     ListTransactionsPending := ListTransactionsPending store;
     ListTransactionsByCreateTime := ListTransactionsByCreateTime store |}.

Definition configured : Globals externals :=
  globals "simple" "leveldb" [factory "simple" "engine-1"].

(** The manager before [Start], with its store. *)
Definition fresh : manager externals :=
  set_persistence externals (Some store) (newManager configured tt tt).

(** Collaborators of [Start]: all well; the connector refusing the block
    listener once two streams are restored; no stream restored. *)
Definition okCalls : startCalls externals :=
  {| restoreStreams := fun m =>
       (set_eventStreams {[ 1%N := "stream-a"; 2%N := "stream-b" ]} m, None);
     NewUUID := 42%N;
     BufferChannel := fun _ _ => make_chan unit 0;
     NewBlockListener := fun _ _ _ => None |}.

Definition listenerDown : startCalls externals :=
  {| restoreStreams := restoreStreams okCalls;
     NewUUID := 42%N;
     BufferChannel := fun _ _ => make_chan unit 0;
     NewBlockListener := fun _ _ _ => Some (LowerError "connector is down") |}.

Definition restoreDown : startCalls externals :=
  {| restoreStreams := fun m => (m, Some (LowerError "streams not readable"));
     NewUUID := 42%N;
     BufferChannel := fun _ _ => make_chan unit 0;
     NewBlockListener := fun _ _ _ => None |}.

End Sample.

(** * Properties *)

(** ** The listing *)

Module ApiFacts.

Import Api.

Section Facts.

Variable context : Type.
Variable persistence : Persistence context.
Variable parseLimit : context -> string -> result Z.
Variable unicodeLower : string -> string.

Local Open Scope result_scope.

Lemma eqb_empty_false (s : string) : s <> "" -> String.eqb s "" = false.
Proof. intros Hs. now apply String.eqb_neq. Qed.

(** [getTransactions] is its four blocks run one after the other, each
    entered only when the ones before it returned no error. *)
Lemma getTransactions_stages ctx afterStr limitStr signer pending dirString :
  getTransactions persistence parseLimit unicodeLower
    ctx afterStr limitStr signer pending dirString =
  (limit <- parseLimit ctx limitStr ;;
   dir <- sortDirection unicodeLower dirString ;;
   afterTx <- cursorLookup persistence ctx afterStr ;;
   listBy persistence ctx signer pending afterTx limit dir).
Proof. reflexivity. Qed.

Lemma sortDirection_descending dirString :
  In (Strings.ToLower unicodeLower dirString) [""; "desc"; "descending"] ->
  sortDirection unicodeLower dirString = OK SortDirectionDescending.
Proof.
  unfold sortDirection; cbv zeta.
  intros Hin. destruct Hin as [H | [H | [H | []]]]; (rewrite <- H; reflexivity).
Qed.

Lemma sortDirection_ascending dirString :
  In (Strings.ToLower unicodeLower dirString) ["asc"; "ascending"] ->
  sortDirection unicodeLower dirString = OK SortDirectionAscending.
Proof.
  unfold sortDirection; cbv zeta.
  intros Hin. destruct Hin as [H | [H | []]]; (rewrite <- H; reflexivity).
Qed.

Lemma sortDirection_unrecognised dirString :
  ~ In (Strings.ToLower unicodeLower dirString)
      [""; "desc"; "descending"; "asc"; "ascending"] ->
  sortDirection unicodeLower dirString =
  Err (NewError MsgInvalidSortDirection [dirString]).
Proof.
  unfold sortDirection; cbv zeta. intros Hnot.
  assert (Hne : forall form,
             In form [""; "desc"; "descending"; "asc"; "ascending"] ->
             String.eqb (Strings.ToLower unicodeLower dirString) form = false).
  { intros form Hin. apply String.eqb_neq. intros Heq. apply Hnot. rewrite Heq. exact Hin. }
  rewrite !Hne by (simpl; tauto). reflexivity.
Qed.

(** The direction switch has no other outcome than these three. *)
Lemma sortDirection_cases dirString :
  sortDirection unicodeLower dirString = OK SortDirectionDescending \/
  sortDirection unicodeLower dirString = OK SortDirectionAscending \/
  sortDirection unicodeLower dirString =
    Err (NewError MsgInvalidSortDirection [dirString]).
Proof.
  unfold sortDirection; cbv zeta.
  destruct (_ || _ || _); [now left|].
  destruct (_ || _); [now right; left | now right; right].
Qed.

Lemma cursorLookup_empty ctx : cursorLookup persistence ctx "" = OK None.
Proof. reflexivity. Qed.

Lemma cursorLookup_found ctx afterStr tx :
  afterStr <> "" ->
  GetTransactionByID persistence ctx afterStr = OK (Some tx) ->
  cursorLookup persistence ctx afterStr = OK (Some tx).
Proof.
  intros Hne Hget. unfold cursorLookup.
  rewrite (eqb_empty_false _ Hne), Hget. reflexivity.
Qed.

Lemma cursorLookup_missing ctx afterStr :
  afterStr <> "" ->
  GetTransactionByID persistence ctx afterStr = OK None ->
  cursorLookup persistence ctx afterStr =
  Err (NewError MsgPaginationErrTxNotFound [afterStr]).
Proof.
  intros Hne Hget. unfold cursorLookup.
  rewrite (eqb_empty_false _ Hne), Hget. reflexivity.
Qed.

Lemma cursorLookup_error ctx afterStr e :
  afterStr <> "" ->
  GetTransactionByID persistence ctx afterStr = Err e ->
  cursorLookup persistence ctx afterStr = Err e.
Proof.
  intros Hne Hget. unfold cursorLookup.
  rewrite (eqb_empty_false _ Hne), Hget. reflexivity.
Qed.

(** What a successful cursor lookup says of the [after] parameter. *)
Lemma cursorLookup_OK ctx afterStr afterTx :
  cursorLookup persistence ctx afterStr = OK afterTx ->
  (afterStr = "" /\ afterTx = None) \/
  (afterStr <> "" /\ exists tx,
      afterTx = Some tx /\
      GetTransactionByID persistence ctx afterStr = OK (Some tx)).
Proof.
  unfold cursorLookup. destruct (String.eqb afterStr "") eqn:Hempty; simpl.
  - intros [= <-]. left. split; [now apply String.eqb_eq | reflexivity].
  - apply String.eqb_neq in Hempty.
    destruct (GetTransactionByID persistence ctx afterStr) as [[tx|]|e]; simpl;
      intros [= <-].
    right. split; [assumption | now exists tx].
Qed.

Lemma listBy_conflict ctx signer afterTx limit dir :
  signer <> "" ->
  listBy persistence ctx signer true afterTx limit dir =
  Err (NewError MsgTXConflictSignerPending []).
Proof.
  intros Hne. unfold listBy. rewrite (eqb_empty_false _ Hne). reflexivity.
Qed.

Local Abbreviation getTx := (getTransactions persistence parseLimit unicodeLower).

(** C1 (as amended). In a call whose limit and direction are accepted and
    whose [after] cursor, when given, is found: with a signer and no pending
    flag the result is that of [ListTransactionsByNonce] for the signer, the
    cursor being the nonce of the [after] transaction (none without [after]);
    with the pending flag and no signer it is that of
    [ListTransactionsPending], the cursor being the [after] transaction's
    sequence ID; with neither it is that of [ListTransactionsByCreateTime]
    with the [after] transaction itself as the cursor. *)
Theorem getTransactions_dispatch ctx afterStr limitStr signer pending dirString
    limit dir afterTx :
  parseLimit ctx limitStr = OK limit ->
  sortDirection unicodeLower dirString = OK dir ->
  cursorLookup persistence ctx afterStr = OK afterTx ->
  ((afterStr = "" /\ afterTx = None) \/
   (afterStr <> "" /\ exists tx,
       afterTx = Some tx /\
       GetTransactionByID persistence ctx afterStr = OK (Some tx))) /\
  (signer <> "" -> pending = false ->
   getTx ctx afterStr limitStr signer pending dirString =
   ListTransactionsByNonce persistence ctx signer
     (match afterTx with Some tx => Nonce tx | None => None end) limit dir) /\
  (signer = "" -> pending = true ->
   getTx ctx afterStr limitStr signer pending dirString =
   ListTransactionsPending persistence ctx
     (match afterTx with Some tx => SequenceID tx | None => None end) limit dir) /\
  (signer = "" -> pending = false ->
   getTx ctx afterStr limitStr signer pending dirString =
   ListTransactionsByCreateTime persistence ctx afterTx limit dir).
Proof.
  intros Hlimit Hdir Hcursor.
  split; [exact (cursorLookup_OK _ _ _ Hcursor)|].
  rewrite getTransactions_stages, Hlimit, Hdir, Hcursor. simpl. unfold listBy.
  repeat split.
  - intros Hsigner ->. rewrite (eqb_empty_false _ Hsigner). reflexivity.
  - intros -> ->. reflexivity.
  - intros -> ->. reflexivity.
Qed.

(** C2 (as amended). A call with both a signer and the pending flag never
    returns a list; its error is [TXConflictSignerPending] (HTTP 400) when
    the limit, the direction and the [after] cursor were accepted before. *)
Theorem getTransactions_conflict ctx afterStr limitStr signer pending dirString :
  signer <> "" -> pending = true ->
  isErr (getTx ctx afterStr limitStr signer pending dirString) = true /\
  (forall limit dir afterTx,
      parseLimit ctx limitStr = OK limit ->
      sortDirection unicodeLower dirString = OK dir ->
      cursorLookup persistence ctx afterStr = OK afterTx ->
      getTx ctx afterStr limitStr signer pending dirString =
        Err (NewError MsgTXConflictSignerPending []) /\
      statusOf (NewError MsgTXConflictSignerPending []) = Some 400).
Proof.
  intros Hsigner ->. rewrite getTransactions_stages. split.
  - destruct (parseLimit ctx limitStr) as [limit|]; [simpl|reflexivity].
    destruct (sortDirection unicodeLower dirString) as [dir|]; [simpl|reflexivity].
    destruct (cursorLookup persistence ctx afterStr) as [afterTx|]; [simpl|reflexivity].
    now rewrite listBy_conflict.
  - intros limit dir afterTx -> -> ->. simpl.
    now rewrite listBy_conflict.
Qed.

(** C3 (as amended). In a call with an [after] parameter whose limit and
    direction are accepted: when the store knows no transaction of that ID
    (nil, no error) the call returns no list and fails with
    [PaginationErrTxNotFound] (HTTP 404); when the lookup fails, the call
    fails with the lookup's error. *)
Theorem getTransactions_cursor_errors ctx afterStr limitStr signer pending dirString
    limit dir :
  afterStr <> "" ->
  parseLimit ctx limitStr = OK limit ->
  sortDirection unicodeLower dirString = OK dir ->
  (GetTransactionByID persistence ctx afterStr = OK None ->
   getTx ctx afterStr limitStr signer pending dirString =
     Err (NewError MsgPaginationErrTxNotFound [afterStr]) /\
   statusOf (NewError MsgPaginationErrTxNotFound [afterStr]) = Some 404) /\
  (forall e,
      GetTransactionByID persistence ctx afterStr = Err e ->
      getTx ctx afterStr limitStr signer pending dirString = Err e).
Proof.
  intros Hafter Hlimit Hdir.
  rewrite getTransactions_stages, Hlimit, Hdir. simpl. split.
  - intros Hnone. now rewrite (cursorLookup_missing _ _ Hafter Hnone).
  - intros e Herr. now rewrite (cursorLookup_error _ _ _ Hafter Herr).
Qed.

(** C4 (as amended). In a call whose limit is accepted: an empty direction
    or 'desc' makes the rest of the call run with the descending order,
    'asc' with the ascending order, and a direction that lowers to none of
    the recognised forms makes the call fail with the invalid-sort-direction
    error (HTTP 400) and return no list. *)
Theorem getTransactions_direction ctx afterStr limitStr signer pending dirString
    limit :
  parseLimit ctx limitStr = OK limit ->
  (dirString = "" \/ dirString = "desc" ->
   getTx ctx afterStr limitStr signer pending dirString =
   (afterTx <- cursorLookup persistence ctx afterStr ;;
    listBy persistence ctx signer pending afterTx limit SortDirectionDescending)) /\
  (dirString = "asc" ->
   getTx ctx afterStr limitStr signer pending dirString =
   (afterTx <- cursorLookup persistence ctx afterStr ;;
    listBy persistence ctx signer pending afterTx limit SortDirectionAscending)) /\
  (~ In (Strings.ToLower unicodeLower dirString)
       [""; "desc"; "descending"; "asc"; "ascending"] ->
   getTx ctx afterStr limitStr signer pending dirString =
     Err (NewError MsgInvalidSortDirection [dirString]) /\
   statusOf (NewError MsgInvalidSortDirection [dirString]) = Some 400).
Proof.
  intros Hlimit. rewrite getTransactions_stages, Hlimit. simpl.
  split; [|split].
  - intros [-> | ->]; reflexivity.
  - intros ->; reflexivity.
  - intros Hunknown. rewrite (sortDirection_unrecognised _ Hunknown). now split.
Qed.

(** C8. The checks of [getTransactions] run in the order limit, direction,
    cursor, signer/pending conflict, and the first one that fails gives the
    error of the call whatever the later ones would say; so a call with a
    signer, the pending flag and an [after] that names no transaction fails
    with the pagination error (404), not with the conflict (400). *)
Theorem getTransactions_validation_order ctx afterStr limitStr signer pending dirString :
  (forall e,
      parseLimit ctx limitStr = Err e ->
      getTx ctx afterStr limitStr signer pending dirString = Err e) /\
  (forall limit e,
      parseLimit ctx limitStr = OK limit ->
      sortDirection unicodeLower dirString = Err e ->
      getTx ctx afterStr limitStr signer pending dirString = Err e) /\
  (forall limit dir e,
      parseLimit ctx limitStr = OK limit ->
      sortDirection unicodeLower dirString = OK dir ->
      cursorLookup persistence ctx afterStr = Err e ->
      getTx ctx afterStr limitStr signer pending dirString = Err e) /\
  (forall limit dir afterTx,
      parseLimit ctx limitStr = OK limit ->
      sortDirection unicodeLower dirString = OK dir ->
      cursorLookup persistence ctx afterStr = OK afterTx ->
      signer <> "" -> pending = true ->
      getTx ctx afterStr limitStr signer pending dirString =
        Err (NewError MsgTXConflictSignerPending [])) /\
  (forall limit dir,
      parseLimit ctx limitStr = OK limit ->
      sortDirection unicodeLower dirString = OK dir ->
      signer <> "" -> pending = true -> afterStr <> "" ->
      GetTransactionByID persistence ctx afterStr = OK None ->
      getTx ctx afterStr limitStr signer pending dirString =
        Err (NewError MsgPaginationErrTxNotFound [afterStr]) /\
      statusOf (NewError MsgPaginationErrTxNotFound [afterStr]) = Some 404 /\
      getTx ctx afterStr limitStr signer pending dirString <>
        Err (NewError MsgTXConflictSignerPending [])).
Proof.
  rewrite getTransactions_stages. split; [|split; [|split; [|split]]].
  - intros e ->. reflexivity.
  - intros limit e -> ->. reflexivity.
  - intros limit dir e -> -> ->. reflexivity.
  - intros limit dir afterTx -> -> -> Hsigner ->. simpl.
    now apply listBy_conflict.
  - intros limit dir -> -> Hsigner -> Hafter Hnone. simpl.
    rewrite (cursorLookup_missing _ _ Hafter Hnone).
    split; [reflexivity|]. split; [reflexivity | discriminate].
Qed.

(** C9. The direction is read through its lowercase form, long forms
    included: a string that lowers to '', 'desc' or 'descending' selects the
    descending order, one that lowers to 'asc' or 'ascending' the ascending
    order, and that order is the one the rest of the call runs with. *)
Theorem sortDirection_case_insensitive dirString :
  (In (Strings.ToLower unicodeLower dirString) [""; "desc"; "descending"] ->
   sortDirection unicodeLower dirString = OK SortDirectionDescending /\
   forall ctx afterStr limitStr signer pending,
     getTx ctx afterStr limitStr signer pending dirString =
     (limit <- parseLimit ctx limitStr ;;
      afterTx <- cursorLookup persistence ctx afterStr ;;
      listBy persistence ctx signer pending afterTx limit SortDirectionDescending)) /\
  (In (Strings.ToLower unicodeLower dirString) ["asc"; "ascending"] ->
   sortDirection unicodeLower dirString = OK SortDirectionAscending /\
   forall ctx afterStr limitStr signer pending,
     getTx ctx afterStr limitStr signer pending dirString =
     (limit <- parseLimit ctx limitStr ;;
      afterTx <- cursorLookup persistence ctx afterStr ;;
      listBy persistence ctx signer pending afterTx limit SortDirectionAscending)).
Proof.
  split; intros Hin.
  - pose proof (sortDirection_descending _ Hin) as Hdir. split; [exact Hdir|].
    intros. now rewrite getTransactions_stages, Hdir.
  - pose proof (sortDirection_ascending _ Hin) as Hdir. split; [exact Hdir|].
    intros. now rewrite getTransactions_stages, Hdir.
Qed.

End Facts.

End ApiFacts.

(** ** The registry *)

Module RegistryFacts.

Import Policyengines.

Section Facts.

Variable E : Externals.t.

Lemma registerAll_cons (factory : Factory.t E) (rest : list (Factory.t E)) g :
  registerAll (factory :: rest) g = registerAll rest (snd (RegisterEngine factory g)).
Proof. reflexivity. Qed.

Lemma RegisterEngine_lookup (factory : Factory.t E) g name :
  policyEngines (snd (RegisterEngine factory g)) !! name =
  if String.eqb (Factory.Name factory) name
  then Some factory
  else policyEngines g !! name.
Proof.
  simpl. destruct (String.eqb (Factory.Name factory) name) eqn:Hname.
  - apply String.eqb_eq in Hname. subst name. apply lookup_insert_eq.
  - apply String.eqb_neq in Hname. now apply lookup_insert_ne.
Qed.

(** After a run of registrations a name is bound to the factory that was
    registered last under it, and to what it was bound to before when the
    run has none. *)
Lemma registerAll_lookup (factories : list (Factory.t E)) g name :
  policyEngines (registerAll factories g) !! name =
  match lastNamed name factories with
  | Some factory => Some factory
  | None => policyEngines g !! name
  end.
Proof.
  revert g. induction factories as [|factory rest IH]; intros g.
  - reflexivity.
  - rewrite registerAll_cons, IH. simpl lastNamed.
    destruct (lastNamed name rest) as [later|]; [reflexivity|].
    rewrite RegisterEngine_lookup.
    now destruct (String.eqb (Factory.Name factory) name).
Qed.

Lemma NewPolicyEngine_registered g ctx baseConfig name (factory : Factory.t E) :
  policyEngines g !! name = Some factory ->
  NewPolicyEngine g ctx baseConfig name =
  Factory.NewPolicyEngine factory ctx (SubSection baseConfig name) (config g).
Proof. intros Hlookup. cbv [NewPolicyEngine]. now rewrite Hlookup. Qed.

Lemma NewPolicyEngine_unregistered (g : Globals E) ctx baseConfig name :
  policyEngines g !! name = None ->
  NewPolicyEngine g ctx baseConfig name =
  Err (NewError MsgPolicyEngineNotRegistered [name]).
Proof. intros Hlookup. cbv [NewPolicyEngine]. now rewrite Hlookup. Qed.

(** C10. [RegisterEngine] returns the factory's name, binds that name to the
    factory in the registry, replacing whatever was bound to it and leaving
    the other names alone, and runs the factory's [InitConfig] on the
    subsection of the policy-engine base section that bears the name.  A
    later [NewPolicyEngine] for the name has the factory registered last
    under it build the engine, on the subsection of its base section that
    bears the same name. *)
Theorem RegisterEngine_then_NewPolicyEngine (factory : Factory.t E) g :
  fst (RegisterEngine factory g) = Factory.Name factory /\
  policyEngines (snd (RegisterEngine factory g)) =
    <[Factory.Name factory := factory]> (policyEngines g) /\
  policyEngines (snd (RegisterEngine factory g)) !! Factory.Name factory =
    Some factory /\
  (forall other,
      other <> Factory.Name factory ->
      policyEngines (snd (RegisterEngine factory g)) !! other =
      policyEngines g !! other) /\
  config (snd (RegisterEngine factory g)) =
    Factory.InitConfig factory
      (SubSection (Externals.PolicyEngineBaseConfig E) (Factory.Name factory))
      (config g) /\
  (forall ctx baseConfig,
      NewPolicyEngine (snd (RegisterEngine factory g)) ctx baseConfig
        (Factory.Name factory) =
      Factory.NewPolicyEngine factory ctx
        (SubSection baseConfig (Factory.Name factory))
        (config (snd (RegisterEngine factory g)))) /\
  (forall later latest ctx baseConfig,
      lastNamed (Factory.Name factory) (factory :: later) = Some latest ->
      NewPolicyEngine (registerAll (factory :: later) g) ctx baseConfig
        (Factory.Name factory) =
      Factory.NewPolicyEngine latest ctx
        (SubSection baseConfig (Factory.Name factory))
        (config (registerAll (factory :: later) g))).
Proof.
  assert (Hbound :
            policyEngines (snd (RegisterEngine factory g)) !! Factory.Name factory =
            Some factory) by apply lookup_insert_eq.
  repeat split; try assumption.
  - intros other Hother. simpl. now apply lookup_insert_ne.
  - intros ctx baseConfig. now apply NewPolicyEngine_registered.
  - intros later latest ctx baseConfig Hlast.
    apply NewPolicyEngine_registered.
    now rewrite registerAll_lookup, Hlast.
Qed.

End Facts.

End RegistryFacts.

(** ** The manager *)

Module ManagerFacts.

Import Policyengines Fftm.

Section Facts.

Variable E : Externals.t.

Lemma trySend_full {T : Type} (c : chan T) (v : T) :
  cap c = length (buf c) -> trySend c v = c.
Proof.
  intros Hfull. unfold trySend. rewrite Hfull.
  now rewrite Nat.ltb_irrefl.
Qed.

(** A full channel drops every further signal. *)
Lemma signalAll_full {T : Type} (vs : list T) (c : chan T) :
  cap c = length (buf c) -> signalAll c vs = c.
Proof.
  intros Hfull. induction vs as [|v rest IH]; [reflexivity|].
  unfold signalAll in *. simpl. now rewrite trySend_full.
Qed.

Lemma signalAll_fresh_one {T : Type} (v : T) (vs : list T) :
  signalAll (make_chan T 1) (v :: vs) = {| cap := 1; buf := [v] |}.
Proof.
  change (signalAll (make_chan T 1) (v :: vs))
    with (signalAll {| cap := 1; buf := [v] |} vs).
  now apply signalAll_full.
Qed.

(** C7. The manager made by [newManager] has its [inflightStale] and
    [inflightUpdate] channels empty and of capacity exactly 1, so that any
    run of one or more signals sent before a receive leaves exactly one
    signal buffered: the later ones are dropped. *)
Theorem newManager_signal_channels (g : Globals E) ctx connector :
  cap (inflightStale (newManager g ctx connector)) = 1%nat /\
  cap (inflightUpdate (newManager g ctx connector)) = 1%nat /\
  buf (inflightStale (newManager g ctx connector)) = [] /\
  buf (inflightUpdate (newManager g ctx connector)) = [] /\
  (forall v vs,
      signalAll (inflightStale (newManager g ctx connector)) (v :: vs) =
        {| cap := 1; buf := [v] |} /\
      signalAll (inflightUpdate (newManager g ctx connector)) (v :: vs) =
        {| cap := 1; buf := [v] |} /\
      length (buf (signalAll (inflightStale (newManager g ctx connector)) (v :: vs))) =
        1%nat /\
      length (buf (signalAll (inflightUpdate (newManager g ctx connector)) (v :: vs))) =
        1%nat).
Proof.
  assert (Hstale : inflightStale (newManager g ctx connector) = make_chan bool 1)
    by reflexivity.
  assert (Hupdate : inflightUpdate (newManager g ctx connector) = make_chan bool 1)
    by reflexivity.
  rewrite Hstale, Hupdate.
  repeat split; rewrite ?signalAll_fresh_one; reflexivity.
Qed.

Lemma initPersistence_unknown (g : Globals E) m ctx :
  Externals.GetString E (config g) PersistenceType <> "leveldb" ->
  initPersistence g m ctx =
  (m, Some (NewError MsgUnknownPersistence
              [Externals.GetString E (config g) PersistenceType])).
Proof.
  intros Htype. unfold initPersistence. cbv zeta.
  apply String.eqb_neq in Htype. now rewrite Htype.
Qed.

Lemma initServices_unregistered (g : Globals E) m ctx :
  policyEngines g !! Externals.GetString E (config g) PolicyEngineName = None ->
  snd (initServices g m ctx) =
  Some (NewError MsgPolicyEngineNotRegistered
          [Externals.GetString E (config g) PolicyEngineName]).
Proof.
  intros Hnone. unfold initServices. cbv zeta.
  now rewrite (RegistryFacts.NewPolicyEngine_unregistered E g _ _ _ Hnone).
Qed.

(** C5. [NewManager] returns an error and no manager whenever the configured
    persistence type is not 'leveldb' ([initPersistence] then fails with
    [MsgUnknownPersistence], which is the error of [NewManager] when the
    services came up), and whenever no factory is registered under the
    configured policy-engine name ([MsgPolicyEngineNotRegistered]).  With
    'leveldb', a registered name and no error from the factory, the HTTP
    server or the store, it returns the manager with both initialised. *)
Theorem NewManager_configuration_errors (g : Globals E) ctx connector :
  (Externals.GetString E (config g) PersistenceType <> "leveldb" ->
   isErr (NewManager g ctx connector) = true /\
   (forall m,
       snd (initPersistence g m ctx) =
       Some (NewError MsgUnknownPersistence
               [Externals.GetString E (config g) PersistenceType])) /\
   (snd (initServices g (newManager g ctx connector) ctx) = None ->
    NewManager g ctx connector =
    Err (NewError MsgUnknownPersistence
           [Externals.GetString E (config g) PersistenceType]))) /\
  (policyEngines g !! Externals.GetString E (config g) PolicyEngineName = None ->
   NewManager g ctx connector =
   Err (NewError MsgPolicyEngineNotRegistered
          [Externals.GetString E (config g) PolicyEngineName])) /\
  (Externals.GetString E (config g) PersistenceType = "leveldb" ->
   forall factory engine server p,
     policyEngines g !! Externals.GetString E (config g) PolicyEngineName =
       Some factory ->
     Factory.NewPolicyEngine factory ctx
       (SubSection (Externals.PolicyEngineBaseConfig E)
          (Externals.GetString E (config g) PolicyEngineName))
       (config g) = OK engine ->
     Externals.NewHTTPServer E ctx "api" = OK server ->
     Externals.NewLevelDBPersistence E ctx = OK p ->
     exists m,
       NewManager g ctx connector = OK m /\
       policyEngine m = Some engine /\
       apiServer m = Some server /\
       persistence m = Some p /\
       started m = false).
Proof.
  split; [|split].
  - intros Htype.
    assert (Hunknown := fun m => initPersistence_unknown g m ctx Htype).
    unfold NewManager. cbv zeta.
    destruct (initServices g (newManager g ctx connector) ctx) as [m [e|]] eqn:Hserv.
    + repeat split; [intros m'; now rewrite Hunknown | discriminate].
    + rewrite Hunknown. repeat split. intros m'; now rewrite Hunknown.
  - intros Hnone. unfold NewManager. cbv zeta.
    pose proof (initServices_unregistered g (newManager g ctx connector) ctx Hnone)
      as Hserv.
    destruct (initServices g (newManager g ctx connector) ctx) as [m oe].
    simpl in Hserv. now subst oe.
  - intros Htype factory engine server p Hfactory Hengine Hserver Hstore.
    unfold NewManager, initServices, initPersistence. cbv zeta.
    rewrite (RegistryFacts.NewPolicyEngine_registered E g _ _ _ _ Hfactory).
    rewrite Hengine, Hserver, Htype, Hstore. simpl.
    eexists. repeat split.
Qed.

Lemma collect_streams {K V : Type} (l : list (K * V)) (acc : list V) :
  fold_left (fun acc s => acc ++ [snd s]) l acc = acc ++ map snd l.
Proof.
  revert acc. induction l as [|kv rest IH]; intros acc; simpl.
  - now rewrite app_nil_r.
  - now rewrite IH, <- app_assoc.
Qed.

(** C6 (as amended). [Close] always cancels the root context first and
    closes persistence last.  On a started manager it performs in between,
    in this order: the receives from the API-server, policy-loop and
    block-listener done channels, the snapshot of the event streams under
    the mutex, and the stop of each stream of the snapshot, every stream of
    the map once; and it clears [started].  On a manager that is not started
    it performs nothing in between. *)
Theorem Close_sequence range (m : manager E) p :
  range (eventStreams m) ≡ₚ map_to_list (eventStreams m) ->
  persistence m = Some p ->
  cancelled (ctx (fst (Close range m))) = true /\
  started (fst (Close range m)) = false /\
  (started m = true ->
   exists streams,
     streams ≡ₚ map snd (map_to_list (eventStreams m)) /\
     snd (Close range m) =
     [CancelCtx; Receive ApiServerDone; Receive PolicyLoopDone;
      Receive BlockListenerDone; MuxLock; MuxUnlock]
       ++ map StreamStop streams ++ [PersistenceClose p]) /\
  (started m = false -> snd (Close range m) = [CancelCtx; PersistenceClose p]).
Proof.
  intros Hrange Hstore. destruct m; simpl in *. subst.
  unfold Close; simpl.
  destruct started0; simpl; repeat split; try discriminate.
  intros _. exists (map snd (range eventStreams0)). split.
  - now rewrite Hrange.
  - now rewrite collect_streams.
Qed.

End Facts.

End ManagerFacts.

(** * The statements on concrete calls *)

Module Scenarios.

Import Api Policyengines Fftm.

Local Abbreviation listing := (getTransactions Sample.store (Sample.parseLimit 25) id tt).

(** A listing by signer after [tx1], two at most, ascending. *)
Lemma getTransactions_dispatch_witness :
  listing "tx1" "2" "0xaaa" false "ASC" =
  ListTransactionsByNonce Sample.store tt "0xaaa" (Some 7) 2 SortDirectionAscending.
Proof.
  destruct (ApiFacts.getTransactions_dispatch unit Sample.store (Sample.parseLimit 25) id
              tt "tx1" "2" "0xaaa" false "ASC" 2 SortDirectionAscending (Some Sample.tx1))
    as (_ & Hsigner & _ & _); [reflexivity | reflexivity | reflexivity |].
  apply Hsigner; [discriminate | reflexivity].
Defined.

(** C1 as stated fails on two calls with a signer: with the pending flag the
    call ends in the conflict error, and with an [after] that names no
    transaction in the pagination error; neither is the result of a
    [ListTransactionsByNonce] query. *)
Lemma getTransactions_signer_without_list :
  "0xaaa" <> "" /\
  listing "" "" "0xaaa" true "" = Err (NewError MsgTXConflictSignerPending []) /\
  listing "nope" "" "0xaaa" false "" = Err (NewError MsgPaginationErrTxNotFound ["nope"]) /\
  (forall cursor limit dir,
      listing "" "" "0xaaa" true "" <>
        ListTransactionsByNonce Sample.store tt "0xaaa" cursor limit dir /\
      listing "nope" "" "0xaaa" false "" <>
        ListTransactionsByNonce Sample.store tt "0xaaa" cursor limit dir).
Proof.
  split; [discriminate|]. split; [reflexivity|]. split; [reflexivity|].
  intros cursor limit dir. split; discriminate.
Qed.

Lemma getTransactions_conflict_witness :
  isErr (listing "" "" "0xaaa" true "desc") = true /\
  listing "" "" "0xaaa" true "desc" = Err (NewError MsgTXConflictSignerPending []).
Proof.
  destruct (ApiFacts.getTransactions_conflict unit Sample.store (Sample.parseLimit 25) id
              tt "" "" "0xaaa" true "desc") as [Hfails Herror];
    [discriminate | reflexivity |].
  split; [exact Hfails|].
  apply (Herror 25 SortDirectionDescending None); reflexivity.
Defined.

(** C2 as stated fails on a call with a signer, the pending flag and an
    [after] that names no transaction: its error is the pagination one. *)
Lemma getTransactions_conflict_after_cursor :
  "0xaaa" <> "" /\
  listing "nope" "" "0xaaa" true "" = Err (NewError MsgPaginationErrTxNotFound ["nope"]) /\
  statusOf (NewError MsgPaginationErrTxNotFound ["nope"]) = Some 404 /\
  listing "nope" "" "0xaaa" true "" <> Err (NewError MsgTXConflictSignerPending []).
Proof.
  repeat split; try reflexivity; discriminate.
Qed.

Lemma getTransactions_cursor_errors_witness :
  listing "nope" "" "" false "" = Err (NewError MsgPaginationErrTxNotFound ["nope"]) /\
  getTransactions Sample.downPersistence (Sample.parseLimit 25) id tt "tx1" "" "" false "" =
    Err (LowerError "store is down").
Proof.
  split.
  - destruct (ApiFacts.getTransactions_cursor_errors unit Sample.store
                (Sample.parseLimit 25) id
                tt "nope" "" "" false "" 25 SortDirectionDescending)
      as (Hmissing & _); [discriminate | reflexivity | reflexivity |].
    apply Hmissing. reflexivity.
  - destruct (ApiFacts.getTransactions_cursor_errors unit Sample.downPersistence
                (Sample.parseLimit 25) id
                tt "tx1" "" "" false "" 25 SortDirectionDescending)
      as (_ & Hfails); [discriminate | reflexivity | reflexivity |].
    apply Hfails. reflexivity.
Defined.

(** C3 as stated fails on a call whose [after] names no transaction and whose
    direction is not recognised: its error is the direction one. *)
Lemma getTransactions_cursor_after_direction :
  "nope" <> "" /\
  GetTransactionByID Sample.store tt "nope" = OK None /\
  listing "nope" "" "" false "sideways" =
    Err (NewError MsgInvalidSortDirection ["sideways"]) /\
  listing "nope" "" "" false "sideways" <>
    Err (NewError MsgPaginationErrTxNotFound ["nope"]).
Proof.
  repeat split; try reflexivity; discriminate.
Qed.

Lemma getTransactions_direction_witness :
  listing "" "10" "" false "sideways" =
  Err (NewError MsgInvalidSortDirection ["sideways"]).
Proof.
  destruct (ApiFacts.getTransactions_direction unit Sample.store (Sample.parseLimit 25) id
              tt "" "10" "" false "sideways" 10)
    as (_ & _ & Hunknown); [reflexivity |].
  apply Hunknown. vm_compute. intuition discriminate.
Defined.

(** C4 as stated fails on a call whose direction is not recognised and whose
    limit is rejected: its error is the one of the limit. *)
Lemma getTransactions_direction_after_limit :
  ~ In (Strings.ToLower id "sideways") [""; "desc"; "descending"; "asc"; "ascending"] /\
  listing "" "x1" "" false "sideways" = Err (LowerError "invalid limit") /\
  listing "" "x1" "" false "sideways" <>
    Err (NewError MsgInvalidSortDirection ["sideways"]) /\
  listing "" "0" "" false "sideways" = Err (LowerError "invalid limit").
Proof.
  split; [vm_compute; intuition discriminate|].
  split; [reflexivity|]. split; [discriminate | reflexivity].
Qed.

Lemma getTransactions_validation_order_witness :
  listing "nope" "" "0xaaa" true "desc" =
    Err (NewError MsgPaginationErrTxNotFound ["nope"]) /\
  listing "nope" "x1" "0xaaa" true "sideways" = Err (LowerError "invalid limit").
Proof.
  pose proof (ApiFacts.getTransactions_validation_order unit Sample.store
                (Sample.parseLimit 25) id tt "nope" "" "0xaaa" true "desc")
    as (_ & _ & _ & _ & Hcursor).
  pose proof (ApiFacts.getTransactions_validation_order unit Sample.store
                (Sample.parseLimit 25) id tt "nope" "x1" "0xaaa" true "sideways")
    as (Hlimit & _).
  split.
  - destruct (Hcursor 25 SortDirectionDescending) as (Herror & _);
      [reflexivity | reflexivity | discriminate | reflexivity | discriminate
      | reflexivity |].
    exact Herror.
  - apply Hlimit. reflexivity.
Defined.

Lemma sortDirection_case_insensitive_witness :
  sortDirection id "DeSCending" = OK SortDirectionDescending /\
  sortDirection id "Asc" = OK SortDirectionAscending.
Proof.
  split.
  - destruct (ApiFacts.sortDirection_case_insensitive unit Sample.store
                (Sample.parseLimit 25) id "DeSCending") as (Hdesc & _).
    apply Hdesc. vm_compute. tauto.
  - destruct (ApiFacts.sortDirection_case_insensitive unit Sample.store
                (Sample.parseLimit 25) id "Asc") as (_ & Hasc).
    apply Hasc. vm_compute. tauto.
Defined.

(** Two factories registered as 'simple', then one as 'other': the engine is
    built by the second 'simple' factory. *)
Lemma RegisterEngine_then_NewPolicyEngine_witness :
  NewPolicyEngine
    (Sample.globals "simple" "leveldb"
       [Sample.factory "simple" "engine-1"; Sample.factory "simple" "engine-2";
        Sample.factory "other" "engine-3"])
    tt ["policyengine"] "simple" = OK "engine-2".
Proof.
  destruct (RegistryFacts.RegisterEngine_then_NewPolicyEngine Sample.externals
              (Sample.factory "simple" "engine-1") (Sample.globals "simple" "leveldb" []))
    as (_ & _ & _ & _ & _ & _ & Hlatest).
  apply (Hlatest [Sample.factory "simple" "engine-2"; Sample.factory "other" "engine-3"]
           (Sample.factory "simple" "engine-2") tt ["policyengine"]).
  reflexivity.
Defined.

(** Start-up with an unknown store, with an unknown engine, and with both
    known. *)
Lemma NewManager_configuration_errors_witness :
  NewManager (Sample.globals "simple" "sqlite" [Sample.factory "simple" "engine-1"]) tt tt =
    Err (NewError MsgUnknownPersistence ["sqlite"]) /\
  NewManager (Sample.globals "fancy" "leveldb" [Sample.factory "simple" "engine-1"]) tt tt =
    Err (NewError MsgPolicyEngineNotRegistered ["fancy"]) /\
  exists m,
    NewManager (Sample.globals "simple" "leveldb" [Sample.factory "simple" "engine-1"]) tt tt =
      OK m /\
    policyEngine m = Some "engine-1" /\
    apiServer m = Some tt /\
    persistence m = Some Sample.store /\
    started m = false.
Proof.
  split; [|split].
  - destruct (ManagerFacts.NewManager_configuration_errors Sample.externals
                (Sample.globals "simple" "sqlite" [Sample.factory "simple" "engine-1"]) tt tt)
      as (Hstore & _ & _).
    destruct Hstore as (_ & _ & Herror); [discriminate|].
    apply Herror. reflexivity.
  - destruct (ManagerFacts.NewManager_configuration_errors Sample.externals
                (Sample.globals "fancy" "leveldb" [Sample.factory "simple" "engine-1"]) tt tt)
      as (_ & Hengine & _).
    apply Hengine. reflexivity.
  - destruct (ManagerFacts.NewManager_configuration_errors Sample.externals
                (Sample.globals "simple" "leveldb" [Sample.factory "simple" "engine-1"]) tt tt)
      as (_ & _ & Hboth).
    apply (Hboth eq_refl (Sample.factory "simple" "engine-1") "engine-1" tt Sample.store);
      reflexivity.
Defined.

(** Shutdown of a started manager with two event streams. *)
Lemma Close_sequence_witness :
  started (fst (Close map_to_list Sample.running)) = false /\
  exists streams,
    streams ≡ₚ ["stream-a"; "stream-b"] /\
    snd (Close map_to_list Sample.running) =
    [@CancelCtx Sample.externals; Receive ApiServerDone; Receive PolicyLoopDone;
     Receive BlockListenerDone; MuxLock; MuxUnlock]
      ++ map (@StreamStop Sample.externals) streams ++ [@PersistenceClose Sample.externals Sample.store].
Proof.
  destruct (ManagerFacts.Close_sequence Sample.externals map_to_list Sample.running
              Sample.store) as (_ & Hcleared & Hstarted & _);
    [reflexivity | reflexivity |].
  split; [exact Hcleared|].
  destruct (Hstarted eq_refl) as (streams & Hperm & Hops).
  exists streams. split; [|exact Hops].
  rewrite Hperm. vm_compute. apply perm_swap.
Defined.

(** C6 as stated fails on a manager that is not started, as it is when
    [Close] follows a [Start] that failed after restoring the streams: the
    waits and the stops are skipped. *)
Lemma Close_not_started_skips :
  started Sample.idle = false /\
  map snd (map_to_list (eventStreams Sample.idle)) ≡ₚ ["stream-a"; "stream-b"] /\
  snd (Close map_to_list Sample.idle) = [@CancelCtx Sample.externals; @PersistenceClose Sample.externals Sample.store] /\
  ~ In (@Receive Sample.externals ApiServerDone) (snd (Close map_to_list Sample.idle)) /\
  ~ In (Receive PolicyLoopDone) (snd (Close map_to_list Sample.idle)) /\
  ~ In (Receive BlockListenerDone) (snd (Close map_to_list Sample.idle)) /\
  ~ In (@StreamStop Sample.externals "stream-a") (snd (Close map_to_list Sample.idle)).
Proof.
  split; [reflexivity|]. split; [vm_compute; apply perm_swap|]. split; [reflexivity|].
  repeat split; simpl; intuition discriminate.
Qed.

End Scenarios.

(** * Further properties *)

(** ** The listing: outcomes, cursors and directions *)

Module ApiMore.

Import Api.

Section Facts.

Variable context : Type.
Variable persistence : Persistence context.
Variable parseLimit : context -> string -> result Z.
Variable unicodeLower : string -> string.

Local Open Scope result_scope.

Local Abbreviation getTx := (getTransactions persistence parseLimit unicodeLower).

Lemma eqb_empty_cases (s : string) :
  (s = "" /\ String.eqb s "" = true) \/ (s <> "" /\ String.eqb s "" = false).
Proof.
  destruct (String.eqb s "") eqn:Hs.
  - left. split; [now apply String.eqb_eq | reflexivity].
  - right. split; [now apply String.eqb_neq | reflexivity].
Qed.

Lemma cursorLookup_Err ctx afterStr e :
  cursorLookup persistence ctx afterStr = Err e ->
  afterStr <> "" /\
  (GetTransactionByID persistence ctx afterStr = Err e \/
   (GetTransactionByID persistence ctx afterStr = OK None /\
    e = NewError MsgPaginationErrTxNotFound [afterStr])).
Proof.
  unfold cursorLookup.
  destruct (eqb_empty_cases afterStr) as [[_ ->] | [Hne ->]]; simpl; [discriminate|].
  intros Hlookup. split; [exact Hne|].
  destruct (GetTransactionByID persistence ctx afterStr) as [[tx|]|e']; simpl in Hlookup;
    [discriminate | right | left]; injection Hlookup as <-; auto.
Qed.

(** X1. An error returned by [getTransactions] has one of six origins: the
    limit parser, the direction switch, the cursor lookup, the missing cursor,
    the signer/pending conflict, or the list query that was run. *)
Theorem getTransactions_error_origin ctx afterStr limitStr signer pending dirString e :
  getTx ctx afterStr limitStr signer pending dirString = Err e ->
  parseLimit ctx limitStr = Err e \/
  e = NewError MsgInvalidSortDirection [dirString] \/
  (afterStr <> "" /\ GetTransactionByID persistence ctx afterStr = Err e) \/
  (afterStr <> "" /\ GetTransactionByID persistence ctx afterStr = OK None /\
   e = NewError MsgPaginationErrTxNotFound [afterStr]) \/
  (signer <> "" /\ pending = true /\ e = NewError MsgTXConflictSignerPending []) \/
  (exists cursor limit dir,
      signer <> "" /\ pending = false /\
      ListTransactionsByNonce persistence ctx signer cursor limit dir = Err e) \/
  (exists cursor limit dir,
      signer = "" /\ pending = true /\
      ListTransactionsPending persistence ctx cursor limit dir = Err e) \/
  (exists cursor limit dir,
      signer = "" /\ pending = false /\
      ListTransactionsByCreateTime persistence ctx cursor limit dir = Err e).
Proof.
  rewrite ApiFacts.getTransactions_stages.
  destruct (parseLimit ctx limitStr) as [limit|e0]; simpl; [|intros [= <-]; now left].
  destruct (ApiFacts.sortDirection_cases unicodeLower dirString) as [-> | [-> | ->]];
    simpl; [| |intros [= <-]; right; now left].
  all: destruct (cursorLookup persistence ctx afterStr) as [afterTx|e1] eqn:Hcursor; simpl.
  all: try (intros [= <-]; apply cursorLookup_Err in Hcursor;
            destruct Hcursor as [Hne [Herr | [Hnone ->]]];
            [right; right; left; now split
            |right; right; right; left; now repeat split]).
  all: unfold listBy;
    destruct (eqb_empty_cases signer) as [[-> _] | [Hsigner ->]]; simpl;
    destruct pending; simpl; intros Hlist.
  all: try (injection Hlist as <-).
  all: do 4 right.
  all: try (left; now repeat split).
  all: right; eauto 10.
Qed.

(** X2. A list returned by [getTransactions] is the answer of exactly the
    query its parameters select: never is one returned with both a signer and
    the pending flag, with an unrecognised direction, or with an [after] that
    was not found. *)
Theorem getTransactions_success_origin ctx afterStr limitStr signer pending dirString txs :
  getTx ctx afterStr limitStr signer pending dirString = OK txs ->
  ~ (signer <> "" /\ pending = true) /\
  exists limit dir afterTx,
    parseLimit ctx limitStr = OK limit /\
    sortDirection unicodeLower dirString = OK dir /\
    cursorLookup persistence ctx afterStr = OK afterTx /\
    (afterStr <> "" -> afterTx <> None) /\
    ((signer <> "" /\
      ListTransactionsByNonce persistence ctx signer
        (match afterTx with Some tx => Nonce tx | None => None end) limit dir = OK txs) \/
     (signer = "" /\ pending = true /\
      ListTransactionsPending persistence ctx
        (match afterTx with Some tx => SequenceID tx | None => None end) limit dir = OK txs) \/
     (signer = "" /\ pending = false /\
      ListTransactionsByCreateTime persistence ctx afterTx limit dir = OK txs)).
Proof.
  rewrite ApiFacts.getTransactions_stages.
  destruct (parseLimit ctx limitStr) as [limit|]; simpl; [|discriminate].
  destruct (sortDirection unicodeLower dirString) as [dir|]; simpl; [|discriminate].
  destruct (cursorLookup persistence ctx afterStr) as [afterTx|] eqn:Hcursor; simpl;
    [|discriminate].
  assert (Hfound : afterStr <> "" -> afterTx <> None).
  { intros Hne. destruct (ApiFacts.cursorLookup_OK _ _ _ _ _ Hcursor)
      as [[Hempty _] | [_ (tx & -> & _)]]; [contradiction | discriminate]. }
  unfold listBy.
  destruct (eqb_empty_cases signer) as [[-> _] | [Hsigner ->]]; simpl;
    destruct pending; simpl; intros Hlist; try discriminate.
  all: split; [intros [Hs Hp]; congruence|].
  all: exists limit, dir, afterTx; repeat split; auto.
Qed.

(** X3. Without an [after] parameter the store is not asked for any
    transaction: two stores that answer the three list queries alike give the
    same listing, whatever their lookups by ID say. *)
Theorem getTransactions_without_cursor_ignores_lookup
    (other : Persistence context) ctx limitStr signer pending dirString :
  (forall c s n l d,
      ListTransactionsByNonce persistence c s n l d =
      ListTransactionsByNonce other c s n l d) ->
  (forall c q l d,
      ListTransactionsPending persistence c q l d = ListTransactionsPending other c q l d) ->
  (forall c t l d,
      ListTransactionsByCreateTime persistence c t l d =
      ListTransactionsByCreateTime other c t l d) ->
  getTx ctx "" limitStr signer pending dirString =
  getTransactions other parseLimit unicodeLower ctx "" limitStr signer pending dirString.
Proof.
  intros Hnonce Hpending Hcreated.
  rewrite !ApiFacts.getTransactions_stages.
  destruct (parseLimit ctx limitStr) as [limit|]; simpl; [|reflexivity].
  destruct (sortDirection unicodeLower dirString) as [dir|]; simpl; [|reflexivity].
  unfold listBy. now rewrite Hnonce, Hpending, Hcreated.
Qed.

(** X4. A cursor transaction that lacks the field of the chosen index is no
    cursor at all: listing by signer after a transaction without nonce, or
    listing the pending ones after a transaction without sequence ID, gives
    what the same call without [after] gives. *)
Theorem getTransactions_cursor_without_key ctx afterStr limitStr signer pending dirString tx :
  GetTransactionByID persistence ctx afterStr = OK (Some tx) ->
  (signer <> "" /\ pending = false /\ Nonce tx = None) \/
  (signer = "" /\ pending = true /\ SequenceID tx = None) ->
  getTransactions persistence parseLimit unicodeLower
    ctx afterStr limitStr signer pending dirString =
  getTransactions persistence parseLimit unicodeLower
    ctx "" limitStr signer pending dirString.
Proof.
  intros Hget Hkey. rewrite !ApiFacts.getTransactions_stages.
  destruct (parseLimit ctx limitStr) as [limit|]; simpl; [|reflexivity].
  destruct (sortDirection unicodeLower dirString) as [dir|]; simpl; [|reflexivity].
  destruct (eqb_empty_cases afterStr) as [[-> _] | [Hne _]]; [reflexivity|].
  rewrite (ApiFacts.cursorLookup_found _ _ _ _ _ Hne Hget).
  simpl. unfold listBy.
  destruct Hkey as [(Hsigner & -> & ->) | (-> & -> & ->)].
  - now rewrite (ApiFacts.eqb_empty_false _ Hsigner).
  - reflexivity.
Qed.

(** X5. Of a recognised direction only the lowercase form matters: two
    direction strings with the same lowercase form, one of them recognised,
    select the same order and give the same listing. *)
Theorem getTransactions_direction_by_lowercase ctx afterStr limitStr signer pending d1 d2 dir :
  Strings.ToLower unicodeLower d1 = Strings.ToLower unicodeLower d2 ->
  sortDirection unicodeLower d1 = OK dir ->
  sortDirection unicodeLower d2 = OK dir /\
  getTx ctx afterStr limitStr signer pending d1 =
  getTx ctx afterStr limitStr signer pending d2.
Proof.
  intros Hlower Hdir.
  assert (Hdir2 : sortDirection unicodeLower d2 = OK dir).
  { revert Hdir. unfold sortDirection. cbv zeta. rewrite Hlower.
    destruct (_ || _ || _); [trivial|]. destruct (_ || _); [trivial | discriminate]. }
  split; [exact Hdir2|].
  now rewrite !ApiFacts.getTransactions_stages, Hdir, Hdir2.
Qed.

End Facts.

End ApiMore.

(** ** The registry over runs of registrations *)

Module RegistryMore.

Import Policyengines.

Section Facts.

Variable E : Externals.t.

Implicit Types (g : Globals E) (factory : Factory.t E) (factories : list (Factory.t E)).

Lemma lastNamed_None name factories :
  lastNamed name factories = None <->
  Forall (fun factory => Factory.Name factory <> name) factories.
Proof.
  induction factories as [|factory rest IH]; simpl.
  - split; [constructor | reflexivity].
  - destruct (lastNamed name rest) as [later|].
    + split; [discriminate|]. intros Hall. inversion Hall as [|? ? _ Hrest]; subst.
      apply IH in Hrest. discriminate.
    + destruct (String.eqb (Factory.Name factory) name) eqn:Hname.
      * apply String.eqb_eq in Hname. split; [discriminate|].
        intros Hall. inversion Hall; subst. contradiction.
      * apply String.eqb_neq in Hname. split; [|reflexivity].
        intros _. constructor; [exact Hname | now apply IH].
Qed.

Lemma lastNamed_Some name factories factory :
  lastNamed name factories = Some factory ->
  Factory.Name factory = name /\ In factory factories.
Proof.
  induction factories as [|first rest IH]; simpl; [discriminate|].
  destruct (lastNamed name rest) as [later|].
  - intros [= <-]. destruct (IH eq_refl) as [Hname Hin]. auto.
  - destruct (String.eqb (Factory.Name first) name) eqn:Hname; [|discriminate].
    intros [= <-]. apply String.eqb_eq in Hname. auto.
Qed.

(** Every name of the registry is the name its factory gives itself. *)
Definition keyedByName g : Prop :=
  forall name factory,
    policyEngines g !! name = Some factory -> Factory.Name factory = name.

(** X6. After any run of registrations [NewPolicyEngine] fails with
    [MsgPolicyEngineNotRegistered] for exactly the names that were not bound
    before and that no factory of the run bears; names are compared as they
    are, letter case included. *)
Theorem NewPolicyEngine_unbound_after_run factories g ctx baseConfig name :
  (policyEngines (registerAll factories g) !! name = None <->
   policyEngines g !! name = None /\
   Forall (fun factory => Factory.Name factory <> name) factories) /\
  (policyEngines g !! name = None ->
   Forall (fun factory => Factory.Name factory <> name) factories ->
   NewPolicyEngine (registerAll factories g) ctx baseConfig name =
   Err (NewError MsgPolicyEngineNotRegistered [name])).
Proof.
  assert (Hiff : policyEngines (registerAll factories g) !! name = None <->
                 policyEngines g !! name = None /\
                 Forall (fun factory => Factory.Name factory <> name) factories).
  { rewrite RegistryFacts.registerAll_lookup, <- lastNamed_None.
    destruct (lastNamed name factories); split.
    - discriminate.
    - intros [_ Habs]. discriminate.
    - auto.
    - tauto. }
  split; [exact Hiff|].
  intros Hnone Hall. apply RegistryFacts.NewPolicyEngine_unregistered.
  apply Hiff. auto.
Qed.

(** X7. The registry stays keyed by the factories' own names: when it is so
    before a run of registrations it is so after it, hence a successful
    [NewPolicyEngine] for a name is the work of a factory of that name. *)
Theorem registerAll_keyedByName factories g :
  keyedByName g ->
  keyedByName (registerAll factories g) /\
  forall ctx baseConfig name engine,
    NewPolicyEngine (registerAll factories g) ctx baseConfig name = OK engine ->
    exists factory,
      Factory.Name factory = name /\
      policyEngines (registerAll factories g) !! name = Some factory /\
      Factory.NewPolicyEngine factory ctx (SubSection baseConfig name)
        (config (registerAll factories g)) = OK engine.
Proof.
  intros Hkeyed.
  assert (Hafter : keyedByName (registerAll factories g)).
  { intros name factory. rewrite RegistryFacts.registerAll_lookup.
    destruct (lastNamed name factories) as [latest|] eqn:Hlast.
    - intros [= <-]. now apply lastNamed_Some in Hlast.
    - apply Hkeyed. }
  split; [exact Hafter|].
  intros ctx baseConfig name engine. cbv [NewPolicyEngine].
  destruct (policyEngines (registerAll factories g) !! name) as [factory|] eqn:Hbound;
    [|discriminate].
  intros Hbuilt. exists factory. repeat split; auto.
Qed.

(** X8. Each registration runs the factory's [InitConfig] on the subsection
    of its own name, in the order of the registrations, and a factory that is
    replaced later has had its run all the same. *)
Theorem registerAll_config factories g :
  config (registerAll factories g) =
  fold_left
    (fun conf factory =>
       Factory.InitConfig factory
         (SubSection (Externals.PolicyEngineBaseConfig E) (Factory.Name factory)) conf)
    factories (config g).
Proof.
  revert g. induction factories as [|factory rest IH]; intros g; [reflexivity|].
  rewrite RegistryFacts.registerAll_cons, IH. reflexivity.
Qed.

(** X9. Registrations only add names: after a run the registered names are
    those bound before together with the names of the factories of the run. *)
Theorem registerAll_dom factories g :
  dom (policyEngines (registerAll factories g)) =
  dom (policyEngines g) ∪ list_to_set (map Factory.Name factories).
Proof.
  revert g. induction factories as [|factory rest IH]; intros g.
  - simpl. now rewrite union_empty_r_L.
  - rewrite RegistryFacts.registerAll_cons, IH. simpl.
    rewrite dom_insert_L.
    rewrite (union_comm_L {[Factory.Name factory]} (dom (policyEngines g))).
    now rewrite union_assoc_L.
Qed.

Lemma lastNamed_among_distinct name factories factory :
  NoDup (map Factory.Name factories) ->
  In factory factories -> Factory.Name factory = name ->
  lastNamed name factories = Some factory.
Proof.
  induction factories as [|first rest IH]; simpl; [contradiction|].
  intros Hdistinct Hin Hname. inversion Hdistinct as [|? ? Hfresh Hrest]; subst.
  destruct Hin as [-> | Hin].
  - assert (Hnone : lastNamed (Factory.Name factory) rest = None).
    { apply lastNamed_None, Forall_forall. intros other Hother Hsame.
      apply Hfresh. rewrite <- Hsame. apply list_elem_of_In.
      apply in_map, list_elem_of_In. exact Hother. }
    now rewrite Hnone, String.eqb_refl.
  - now rewrite (IH Hrest Hin eq_refl).
Qed.

(** X10. When the factories of a run bear distinct names the order of their
    registration does not matter to the registry: any reordering of the run
    binds every name to the same factory. *)
Theorem registerAll_order_irrelevant factories reordered g :
  NoDup (map Factory.Name factories) ->
  factories ≡ₚ reordered ->
  policyEngines (registerAll factories g) = policyEngines (registerAll reordered g).
Proof.
  intros Hdistinct Hperm. apply map_eq. intros name.
  rewrite !RegistryFacts.registerAll_lookup.
  assert (Hdistinct' : NoDup (map Factory.Name reordered)).
  { apply NoDup_ListNoDup. apply NoDup_ListNoDup in Hdistinct.
    now rewrite <- Hperm. }
  assert (Hsame : lastNamed name factories = lastNamed name reordered).
  { destruct (lastNamed name factories) as [factory|] eqn:Hlast.
    - apply lastNamed_Some in Hlast as [Hname Hin]. symmetry.
      apply lastNamed_among_distinct; auto.
      apply list_elem_of_In. rewrite <- Hperm. now apply list_elem_of_In.
    - symmetry. apply lastNamed_None. rewrite <- Hperm. now apply lastNamed_None. }
  now rewrite Hsame.
Qed.

End Facts.

End RegistryMore.

(** ** The manager: construction, shutdown and start *)

Module ManagerMore.

Import Policyengines Fftm.

Section Facts.

Variable E : Externals.t.

Implicit Types (g : Globals E) (m : manager E).


(** X12. An error of [NewManager] is one of five: the engine name is not
    registered, the factory failed (its error as it is), the HTTP server
    failed (its error as it is), the persistence type is unknown, or the store
    failed (its error wrapped in [MsgPersistenceInitFail] with the type); and
    the store is the last to be tried. *)
Theorem NewManager_error_origin g ctx connector e :
  NewManager g ctx connector = Err e ->
  (policyEngines g !! Externals.GetString E (config g) PolicyEngineName = None /\
   e = NewError MsgPolicyEngineNotRegistered
         [Externals.GetString E (config g) PolicyEngineName]) \/
  (exists factory,
      policyEngines g !! Externals.GetString E (config g) PolicyEngineName =
        Some factory /\
      Factory.NewPolicyEngine factory ctx
        (SubSection (Externals.PolicyEngineBaseConfig E)
           (Externals.GetString E (config g) PolicyEngineName))
        (config g) = Err e) \/
  (snd (initServices g (newManager g ctx connector) ctx) = Some e /\
   Externals.NewHTTPServer E ctx "api" = Err e) \/
  (snd (initServices g (newManager g ctx connector) ctx) = None /\
   Externals.GetString E (config g) PersistenceType <> "leveldb" /\
   e = NewError MsgUnknownPersistence
         [Externals.GetString E (config g) PersistenceType]) \/
  (snd (initServices g (newManager g ctx connector) ctx) = None /\
   Externals.GetString E (config g) PersistenceType = "leveldb" /\
   exists cause,
     Externals.NewLevelDBPersistence E ctx = Err cause /\
     e = WrapError MsgPersistenceInitFail
           [Externals.GetString E (config g) PersistenceType] cause).
Proof.
  unfold NewManager, initServices, initPersistence. cbv [NewPolicyEngine]. cbv zeta.
  destruct (policyEngines g !! Externals.GetString E (config g) PolicyEngineName)
    as [factory|] eqn:Hbound; [|intros [= <-]; now left].
  destruct (Factory.NewPolicyEngine factory ctx _ (config g)) as [engine|e1] eqn:Hengine;
    [|intros [= <-]; right; left; now exists factory].
  destruct (Externals.NewHTTPServer E ctx "api") as [server|e2] eqn:Hserver;
    [|intros [= <-]; right; right; left; now split].
  destruct (String.eqb (Externals.GetString E (config g) PersistenceType) "leveldb")
    eqn:Htype.
  - apply String.eqb_eq in Htype.
    destruct (Externals.NewLevelDBPersistence E ctx) as [store|cause] eqn:Hstore;
      [discriminate|].
    intros [= <-]. do 4 right. repeat split; [exact Htype|]. now exists cause.
  - apply String.eqb_neq in Htype.
    intros [= <-]. do 3 right. left. now repeat split.
Qed.

Lemma Close_not_started range m :
  started m = false ->
  snd (Close range m) =
  [CancelCtx;
   match persistence m with
   | Some p => PersistenceClose p
   | None => NilPersistence
   end].
Proof. intros Hidle. destruct m; simpl in *. subst. reflexivity. Qed.

Lemma Close_started range m :
  started m = true ->
  snd (Close range m) =
  [CancelCtx; Receive ApiServerDone; Receive PolicyLoopDone; Receive BlockListenerDone;
   MuxLock; MuxUnlock]
    ++ map StreamStop (map snd (range (eventStreams m)))
    ++ [match persistence m with
        | Some p => PersistenceClose p
        | None => NilPersistence
        end].
Proof.
  intros Hrun. destruct m; simpl in *. subst. unfold Close; simpl.
  now rewrite ManagerFacts.collect_streams.
Qed.

(** What [Close] leaves of the manager: only the cancellation flag and
    [started] are written. *)
Lemma Close_state range m :
  started (fst (Close range m)) = false /\
  cancelled (Fftm.ctx (fst (Close range m))) = true /\
  parent (Fftm.ctx (fst (Close range m))) = parent (Fftm.ctx m) /\
  persistence (fst (Close range m)) = persistence m /\
  eventStreams (fst (Close range m)) = eventStreams m /\
  streamsByName (fst (Close range m)) = streamsByName m /\
  inflight (fst (Close range m)) = inflight m /\
  inflightStale (fst (Close range m)) = inflightStale m /\
  inflightUpdate (fst (Close range m)) = inflightUpdate m /\
  policyLoopDone (fst (Close range m)) = policyLoopDone m /\
  blockListenerDone (fst (Close range m)) = blockListenerDone m.
Proof. destruct m as [? ? ? ? ? ? ? ? ? ? ? ? ? ? ? ? ? [] ? ? ? ? ?]; repeat split. Qed.

(** X13. [Close] writes only the cancellation flag and [started]: the stream
    maps, the in-flight set, the channels and the store are left as they
    were.  A second [Close] therefore finds the manager not started, changes
    nothing more, waits for no task and stops no stream, but cancels and
    closes the store once more. *)
Theorem Close_twice range range' m :
  eventStreams (fst (Close range m)) = eventStreams m /\
  persistence (fst (Close range m)) = persistence m /\
  inflight (fst (Close range m)) = inflight m /\
  fst (Close range' (fst (Close range m))) = fst (Close range m) /\
  snd (Close range' (fst (Close range m))) =
  [CancelCtx;
   match persistence m with
   | Some p => PersistenceClose p
   | None => NilPersistence
   end].
Proof.
  destruct (Close_state range m)
    as (Hidle & _ & _ & Hstore & Hstreams & _ & Hinflight & _).
  repeat split; auto.
  - destruct m as [? ? ? ? ? ? ? ? ? ? ? ? ? ? ? ? ? [] ? ? ? ? ?]; reflexivity.
  - now rewrite (Close_not_started range' _ Hidle), Hstore.
Qed.

(** X14. [Close] stops a stream exactly when the manager was started and the
    stream is in its map. *)
Theorem Close_stops_stream range m s :
  range (eventStreams m) ≡ₚ map_to_list (eventStreams m) ->
  In (StreamStop s) (snd (Close range m)) <->
  started m = true /\ exists id, eventStreams m !! id = Some s.
Proof.
  intros Hrange. destruct (started m) eqn:Hstarted.
  - rewrite (Close_started range m Hstarted). split.
    + intros Hin. split; [reflexivity|].
      simpl in Hin. destruct Hin as [Hin|[Hin|[Hin|[Hin|[Hin|[Hin|Hin]]]]]];
        try discriminate.
      apply in_app_or in Hin as [Hin|Hin].
      * apply in_map_iff in Hin as (s' & [= ->] & Hin).
        apply in_map_iff in Hin as ([id s'] & Hs & Hin). simpl in Hs. subst s'.
        exists id. apply elem_of_map_to_list. rewrite <- Hrange.
        now apply list_elem_of_In.
      * destruct Hin as [Hin|[]]. destruct (persistence m); discriminate.
    + intros [_ [id Hid]]. do 6 right. rewrite app_nil_l. apply in_or_app. left.
      apply in_map, in_map_iff. exists (id, s). split; [reflexivity|].
      apply list_elem_of_In. rewrite Hrange. now apply elem_of_map_to_list.
  - rewrite (Close_not_started range m Hstarted). split.
    + intros [Hin|[Hin|[]]]; [discriminate|].
      destruct (persistence m); discriminate.
    + intros [Habs _]. discriminate.
Qed.

End Facts.

End ManagerMore.

Module StartFacts.

Import Policyengines Fftm.

Section Facts.

Variable E : Externals.t.

Implicit Types (g : Globals E) (m : manager E) (calls : startCalls E).

(** The launches of [Start], in the order of the source. *)
Definition launches : list startOp :=
  [GoRunAPIServer; MarkInflightStale; GoPolicyLoop; GoConfirmationsStart].

Lemma no_launch_in_prefix (debugOps closeOps : list startOp) id op :
  (forall o, In o debugOps -> exists port, o = GoDebugListen port) ->
  (forall o, In o closeOps -> exists port, o = DebugClose port) ->
  In op launches ->
  ~ In op ([RestoreStreams] ++ debugOps ++ [BufferBlocks; ListenBlocks id] ++ closeOps).
Proof.
  intros Hdebug Hclose Hop Hin.
  simpl in Hin. destruct Hin as [<- | Hin].
  { simpl in Hop. intuition discriminate. }
  apply in_app_or in Hin as [Hin | Hin].
  { destruct (Hdebug _ Hin) as [port ->]. simpl in Hop. intuition discriminate. }
  simpl in Hin. destruct Hin as [<- | [<- | Hin]].
  - simpl in Hop. intuition discriminate.
  - simpl in Hop. intuition discriminate.
  - destruct (Hclose _ Hin) as [port ->]. simpl in Hop. intuition discriminate.
Qed.

Lemma deferredDebugClose_only (debugServer : option Z) o :
  In o (deferredDebugClose debugServer) -> exists port, o = DebugClose port.
Proof.
  destruct debugServer as [port|]; simpl; [|contradiction].
  intros [<- | []]. now exists port.
Qed.

(** X15. A [Start] that returns an error has launched none of its tasks and
    has not signalled the policy loop; the manager is as [restoreStreams]
    left it but for the block-listener done channel: it is not marked
    started and has no policy-loop done channel of this call.  The error is
    that of [restoreStreams], after which nothing else was done, or that of
    the connector's [NewBlockListener]. *)
Theorem Start_failure calls g m m' e ops :
  Start calls g m = (m', Some e, ops) ->
  started m' = started (fst (restoreStreams calls m)) /\
  policyLoopDone m' = policyLoopDone (fst (restoreStreams calls m)) /\
  inflightStale m' = inflightStale (fst (restoreStreams calls m)) /\
  eventStreams m' = eventStreams (fst (restoreStreams calls m)) /\
  persistence m' = persistence (fst (restoreStreams calls m)) /\
  (forall op, In op launches -> ~ In op ops) /\
  ((restoreStreams calls m = (m', Some e) /\ ops = [RestoreStreams]) \/
   (snd (restoreStreams calls m) = None /\
    NewBlockListener calls
      (connector (fst (restoreStreams calls m)))
      (Fftm.ctx (fst (restoreStreams calls m))) (NewUUID calls) = Some e /\
    blockListenerDone m' =
      Some (BufferChannel calls (Fftm.ctx (fst (restoreStreams calls m)))
              (confirmations (fst (restoreStreams calls m)))))).
Proof.
  unfold Start.
  destruct (restoreStreams calls m) as [m1 [e1|]] eqn:Hrestore; cbv zeta.
  - intros [= <- <- <-]. simpl. repeat split; auto.
    intros op Hop [<- | []]. simpl in Hop. intuition discriminate.
  - cbn [fst snd].
    destruct (NewBlockListener calls _ _ (NewUUID calls)) as [e2|] eqn:Hlisten;
      [|discriminate].
    intros [= <- <- <-]. cbn in Hlisten |- *.
    repeat split; [|right; repeat split; exact Hlisten].
    intros op Hop. apply no_launch_in_prefix; auto.
    + intros o. destruct (0 <=? _); simpl; [|contradiction].
      intros [<- | []]. eauto.
    + apply deferredDebugClose_only.
Qed.

(** X16. A [Start] that returns no error had its streams restored and its
    block listener accepted; it has marked the manager started, given it a
    fresh unbuffered policy-loop done channel and the done channel of the
    block buffer, and has launched, after the listener and in this order, the
    API server, the stale signal, the policy loop and the confirmations
    manager; only the close of the debug server follows. *)
Theorem Start_success calls g m m' ops :
  Start calls g m = (m', None, ops) ->
  snd (restoreStreams calls m) = None /\
  NewBlockListener calls
    (connector (fst (restoreStreams calls m)))
    (Fftm.ctx (fst (restoreStreams calls m))) (NewUUID calls) = None /\
  started m' = true /\
  policyLoopDone m' = Some (make_chan unit 0) /\
  blockListenerDone m' =
    Some (BufferChannel calls (Fftm.ctx (fst (restoreStreams calls m)))
            (confirmations (fst (restoreStreams calls m)))) /\
  eventStreams m' = eventStreams (fst (restoreStreams calls m)) /\
  persistence m' = persistence (fst (restoreStreams calls m)) /\
  exists before after,
    ops = before ++ [ListenBlocks (NewUUID calls)] ++ launches ++ after /\
    (forall op, In op launches -> ~ In op before) /\
    (forall op, In op after -> exists port, op = DebugClose port).
Proof.
  unfold Start.
  destruct (restoreStreams calls m) as [m1 [e1|]] eqn:Hrestore; cbv zeta;
    [discriminate|].
  cbn [fst snd].
  destruct (NewBlockListener calls _ _ (NewUUID calls)) as [e2|] eqn:Hlisten;
    [discriminate|].
  intros [= <- <-]. cbn in Hlisten |- *.
  repeat split; auto.
  set (debugServer := if 0 <=? Externals.GetInt E (config g) DebugPort
                      then Some (Externals.GetInt E (config g) DebugPort) else None).
  exists (RestoreStreams ::
            match debugServer with Some port => [GoDebugListen port] | None => [] end
            ++ [BufferBlocks]),
    (deferredDebugClose debugServer).
  split; [|split].
  - simpl. rewrite <- !app_assoc. reflexivity.
  - intros op Hop Hin. simpl in Hin. destruct Hin as [<- | Hin].
    { simpl in Hop. intuition discriminate. }
    apply in_app_or in Hin as [Hin | [<- | []]].
    + destruct debugServer; simpl in Hin; [|contradiction].
      destruct Hin as [<- | []]. simpl in Hop. intuition discriminate.
    + simpl in Hop. intuition discriminate.
  - apply deferredDebugClose_only.
Qed.

(** X17. Once the streams are restored, [Start] launches the debug server
    exactly when the configured debug port is not negative, and then closes
    it as its last operation, whether it goes on to succeed or to fail: the
    debug server does not outlive [Start]. With a negative port, or when the
    streams are not restored, there is no debug server. *)
Theorem Start_debug_server calls g m :
  (snd (restoreStreams calls m) = None ->
   0 <= Externals.GetInt E (config g) DebugPort ->
   exists before,
     snd (Start calls g m) =
       before ++ [DebugClose (Externals.GetInt E (config g) DebugPort)] /\
     In (GoDebugListen (Externals.GetInt E (config g) DebugPort)) before) /\
  (snd (restoreStreams calls m) <> None \/
   Externals.GetInt E (config g) DebugPort < 0 ->
   forall port,
     ~ In (GoDebugListen port) (snd (Start calls g m)) /\
     ~ In (DebugClose port) (snd (Start calls g m))).
Proof.
  unfold Start. split.
  - intros Hrestore Hport.
    destruct (restoreStreams calls m) as [m1 [e1|]]; [discriminate|]. cbv zeta.
    apply Z.leb_le in Hport. rewrite Hport.
    destruct (NewBlockListener calls _ _ (NewUUID calls)); cbn [snd deferredDebugClose].
    + exists [RestoreStreams; GoDebugListen (Externals.GetInt E (config g) DebugPort);
              BufferBlocks; ListenBlocks (NewUUID calls)].
      split; [reflexivity | right; left; reflexivity].
    + exists ([RestoreStreams; GoDebugListen (Externals.GetInt E (config g) DebugPort);
               BufferBlocks; ListenBlocks (NewUUID calls)] ++ launches).
      split; [reflexivity | right; left; reflexivity].
  - intros Hnone port.
    destruct (restoreStreams calls m) as [m1 [e1|]]; cbv zeta.
    + simpl. intuition discriminate.
    + destruct Hnone as [Habs | Hport]; [now contradiction Habs|].
      apply Z.ltb_lt in Hport. rewrite Z.leb_antisym, Hport. simpl negb. cbv iota.
      destruct (NewBlockListener calls _ _ (NewUUID calls)); simpl;
        intuition discriminate.
Qed.

(** What [Start] leaves of the manager [restoreStreams] gave it: the streams
    and the store are kept, and [started] is raised on success only. *)
Lemma Start_state calls g m :
  eventStreams (fst (fst (Start calls g m))) =
    eventStreams (fst (restoreStreams calls m)) /\
  persistence (fst (fst (Start calls g m))) =
    persistence (fst (restoreStreams calls m)) /\
  started (fst (fst (Start calls g m))) =
    match snd (fst (Start calls g m)) with
    | None => true
    | Some _ => started (fst (restoreStreams calls m))
    end.
Proof.
  unfold Start.
  destruct (restoreStreams calls m) as [m1 [e1|]]; cbv zeta; [now repeat split|].
  destruct (NewBlockListener calls _ _ (NewUUID calls)); now repeat split.
Qed.

(** X18. [Close] after [Start]: when [Start] succeeded, [Close] waits for the
    three tasks and stops the restored streams before closing the store; when
    [Start] failed on a manager not started before, [Close] only cancels and
    closes the store, so that streams restored by the failed [Start] are
    left running. *)
Theorem Start_then_Close calls g m m' outcome ops range :
  Start calls g m = (m', outcome, ops) ->
  (outcome = None ->
   snd (Close range m') =
   [CancelCtx; Receive ApiServerDone; Receive PolicyLoopDone; Receive BlockListenerDone;
    MuxLock; MuxUnlock]
     ++ map StreamStop
          (map snd (range (eventStreams (fst (restoreStreams calls m)))))
     ++ [match persistence (fst (restoreStreams calls m)) with
         | Some p => PersistenceClose p
         | None => NilPersistence
         end]) /\
  (outcome <> None ->
   started (fst (restoreStreams calls m)) = false ->
   snd (Close range m') =
   [CancelCtx;
    match persistence (fst (restoreStreams calls m)) with
    | Some p => PersistenceClose p
    | None => NilPersistence
    end] /\
   forall s, ~ In (StreamStop s) (snd (Close range m'))).
Proof.
  intros Hstart.
  destruct (Start_state calls g m) as (Hstreams & Hstore & Hstarted).
  rewrite Hstart in Hstreams, Hstore, Hstarted. cbn [fst snd] in *.
  split.
  - intros ->.
    now rewrite (ManagerMore.Close_started E range m' Hstarted), Hstreams, Hstore.
  - intros Hfailed Hidle. destruct outcome as [e|]; [|contradiction].
    rewrite Hidle in Hstarted.
    rewrite (ManagerMore.Close_not_started E range m' Hstarted), Hstore.
    split; [reflexivity|].
    intros s [Hin | [Hin | []]]; [discriminate|].
    destruct (persistence (fst (restoreStreams calls m))); discriminate.
Qed.

End Facts.

End StartFacts.

(** * The further properties on concrete calls *)

Module MoreScenarios.

Import Api Policyengines Fftm.

Local Abbreviation listing := (getTransactions Sample.store (Sample.parseLimit 25) id tt).

(** The error of a listing by signer on a store that is down is that of the
    list query. *)
Lemma getTransactions_error_origin_witness :
  exists cursor limit dir,
    ListTransactionsByNonce Sample.downPersistence tt "0xaaa" cursor limit dir =
    Err (LowerError "store is down").
Proof.
  destruct (ApiMore.getTransactions_error_origin unit Sample.downPersistence
              (Sample.parseLimit 25) id tt "" "" "0xaaa" false ""
              (LowerError "store is down") eq_refl)
    as [H|[H|[[H _]|[[H _]|[(_ & H & _)|[(c & l & d & _ & _ & H)
       |[(c & l & d & H & _)|(c & l & d & H & _)]]]]]]];
    try discriminate; try (now contradiction H).
  now exists c, l, d.
Defined.

Lemma getTransactions_success_origin_witness :
  ~ ("0xaaa" <> "" /\ false = true).
Proof.
  exact (proj1 (ApiMore.getTransactions_success_origin unit Sample.store
                  (Sample.parseLimit 25) id tt "tx1" "2" "0xaaa" false "asc"
                  [Sample.tx1; Sample.tx2] eq_refl)).
Defined.

Lemma getTransactions_without_cursor_ignores_lookup_witness :
  listing "" "2" "" true "asc" =
  getTransactions Sample.blindStore (Sample.parseLimit 25) id tt "" "2" "" true "asc".
Proof.
  apply (ApiMore.getTransactions_without_cursor_ignores_lookup unit Sample.store
           (Sample.parseLimit 25) id Sample.blindStore tt "2" "" true "asc");
    reflexivity.
Defined.

Lemma getTransactions_cursor_without_key_witness :
  getTransactions Sample.earlyStore (Sample.parseLimit 25) id tt "tx4" "" "0xaaa" false "" =
  getTransactions Sample.earlyStore (Sample.parseLimit 25) id tt "" "" "0xaaa" false "".
Proof.
  apply (ApiMore.getTransactions_cursor_without_key unit Sample.earlyStore
           (Sample.parseLimit 25) id tt "tx4" "" "0xaaa" false "" Sample.tx4);
    [reflexivity|].
  left. split; [discriminate|]. split; reflexivity.
Defined.

Lemma getTransactions_direction_by_lowercase_witness :
  sortDirection id "desc" = OK SortDirectionDescending /\
  listing "" "" "" false "DESC" = listing "" "" "" false "desc".
Proof.
  apply (ApiMore.getTransactions_direction_by_lowercase unit Sample.store
           (Sample.parseLimit 25) id tt "" "" "" false "DESC" "desc"
           SortDirectionDescending); reflexivity.
Defined.

(** 'Simple' is not 'simple'. *)
Lemma NewPolicyEngine_unbound_after_run_witness :
  NewPolicyEngine (Sample.globals "Simple" "leveldb" [Sample.factory "simple" "engine-1"])
    tt ["policyengine"] "Simple" =
  Err (NewError MsgPolicyEngineNotRegistered ["Simple"]).
Proof.
  apply (RegistryMore.NewPolicyEngine_unbound_after_run Sample.externals
           [Sample.factory "simple" "engine-1"]
           (Build_Globals Sample.externals ∅
              {| Sample.engineName := "Simple"; Sample.persistenceType := "leveldb";
                 Sample.initialised := [] |})
           tt ["policyengine"] "Simple").
  - reflexivity.
  - repeat constructor. discriminate.
Defined.

Lemma registerAll_keyedByName_witness :
  RegistryMore.keyedByName Sample.externals
    (Sample.globals "simple" "leveldb"
       [Sample.factory "simple" "engine-1"; Sample.factory "other" "engine-2"]).
Proof.
  apply (RegistryMore.registerAll_keyedByName Sample.externals
           [Sample.factory "simple" "engine-1"; Sample.factory "other" "engine-2"]
           (Build_Globals Sample.externals ∅
              {| Sample.engineName := "simple"; Sample.persistenceType := "leveldb";
                 Sample.initialised := [] |})).
  intros name factory Hbound. simpl in Hbound. discriminate.
Defined.

Lemma registerAll_order_irrelevant_witness :
  policyEngines
    (Sample.globals "simple" "leveldb"
       [Sample.factory "simple" "engine-1"; Sample.factory "other" "engine-2"]) =
  policyEngines
    (Sample.globals "simple" "leveldb"
       [Sample.factory "other" "engine-2"; Sample.factory "simple" "engine-1"]).
Proof.
  apply (RegistryMore.registerAll_order_irrelevant Sample.externals
           [Sample.factory "simple" "engine-1"; Sample.factory "other" "engine-2"]
           [Sample.factory "other" "engine-2"; Sample.factory "simple" "engine-1"]).
  - apply (bool_decide_unpack _). vm_compute. reflexivity.
  - apply perm_swap.
Defined.


Lemma NewManager_error_origin_witness :
  Externals.GetString Sample.externals
    (config (Sample.globals "simple" "sqlite" [Sample.factory "simple" "engine-1"]))
    PersistenceType <> "leveldb".
Proof.
  destruct (ManagerMore.NewManager_error_origin Sample.externals
              (Sample.globals "simple" "sqlite" [Sample.factory "simple" "engine-1"])
              tt tt (NewError MsgUnknownPersistence ["sqlite"]) eq_refl)
    as [[H _]|[(f & _ & H)|[[H _]|[(_ & H & _)|(_ & H & _)]]]];
    first [exact H | vm_compute in H; discriminate].
Defined.

Lemma Close_stops_stream_witness :
  In (@StreamStop Sample.externals "stream-a") (snd (Close map_to_list Sample.running)).
Proof.
  apply (ManagerMore.Close_stops_stream Sample.externals map_to_list Sample.running
           "stream-a"); [reflexivity|].
  split; [reflexivity|]. exists 1%N. reflexivity.
Defined.

Lemma Start_failure_witness :
  started (fst (fst (Start Sample.listenerDown Sample.configured Sample.fresh))) =
  started (fst (restoreStreams Sample.listenerDown Sample.fresh)).
Proof.
  exact (proj1 (StartFacts.Start_failure Sample.externals Sample.listenerDown
                  Sample.configured Sample.fresh
                  (fst (fst (Start Sample.listenerDown Sample.configured Sample.fresh)))
                  (LowerError "connector is down")
                  (snd (Start Sample.listenerDown Sample.configured Sample.fresh))
                  eq_refl)).
Defined.

Lemma Start_success_witness :
  started (fst (fst (Start Sample.okCalls Sample.configured Sample.fresh))) = true.
Proof.
  destruct (StartFacts.Start_success Sample.externals Sample.okCalls
              Sample.configured Sample.fresh
              (fst (fst (Start Sample.okCalls Sample.configured Sample.fresh)))
              (snd (Start Sample.okCalls Sample.configured Sample.fresh))
              eq_refl) as (_ & _ & Hstarted & _).
  exact Hstarted.
Defined.

Lemma Start_debug_server_witness :
  exists before,
    snd (Start Sample.okCalls Sample.configured Sample.fresh) =
      before ++ [DebugClose 100] /\
    In (GoDebugListen 100) before.
Proof.
  apply (StartFacts.Start_debug_server Sample.externals Sample.okCalls
           Sample.configured Sample.fresh); [reflexivity|].
  simpl. lia.
Defined.

(** The streams restored before the connector refused the block listener are
    not stopped by [Close]. *)
Lemma Start_then_Close_witness :
  eventStreams (fst (fst (Start Sample.listenerDown Sample.configured Sample.fresh)))
    !! 1%N = Some "stream-a" /\
  forall s,
    ~ In (@StreamStop Sample.externals s)
        (snd (Close map_to_list
                (fst (fst (Start Sample.listenerDown Sample.configured Sample.fresh))))).
Proof.
  split; [reflexivity|].
  apply (StartFacts.Start_then_Close Sample.externals Sample.listenerDown
           Sample.configured Sample.fresh
           (fst (fst (Start Sample.listenerDown Sample.configured Sample.fresh)))
           (Some (LowerError "connector is down"))
           (snd (Start Sample.listenerDown Sample.configured Sample.fresh))
           map_to_list eq_refl); [discriminate | reflexivity].
Defined.

End MoreScenarios.
